(** * cerberus: the rate-limiting middlewares [Middleware] and [AdvancedMiddleware]

    A shallow embedding of [middleware.go] and of the advanced middleware,
    together with the part of Go's [net/http], [net/textproto], [time] and
    [fmt] packages the two handlers call.

    The handlers are effectful: they call the rate limiter (whose side
    effects are opaque), mutate the response writer and may call the next
    handler.  They are written in a small state monad whose state holds the
    response writer, the state of everything outside the handler, and the
    list of calls the handler has made so far. *)

From Stdlib Require Import ZArith Ascii String List Lia.
From Stdlib Require Import DecimalString DecimalZ DecimalN DecimalPos DecimalFacts.
From stdpp Require Import base strings gmap list.

Local Open Scope Z_scope.

(** ** Go library model *)

(** *** [net/http] status codes used by the handlers *)

Definition StatusOK : Z := 200.
Definition StatusTooManyRequests : Z := 429.
Definition StatusInternalServerError : Z := 500.

(** *** [net/textproto.CanonicalMIMEHeaderKey]

    [http.Header.Set] and [http.Header.Get] canonicalise the key: when every
    byte of the key is a valid header-field byte, the first letter and every
    letter after a hyphen is upper-cased and every other letter is
    lower-cased; a key holding any other byte is left as it is. *)

Definition is_lower (c : ascii) : bool :=
  let n := nat_of_ascii c in ((97 <=? n) && (n <=? 122))%nat.

Definition is_upper (c : ascii) : bool :=
  let n := nat_of_ascii c in ((65 <=? n) && (n <=? 90))%nat.

Definition is_digit (c : ascii) : bool :=
  let n := nat_of_ascii c in ((48 <=? n) && (n <=? 57))%nat.

Definition toLower : nat := 32.

Definition validHeaderFieldByte (c : ascii) : bool :=
  is_lower c || is_upper c || is_digit c ||
  existsb (Ascii.eqb c)
    ["!"; "#"; "$"; "%"; "&"; "'"; "*"; "+"; "-"; "."; "^"; "_"; "`"; "|"; "~"]%char.

Fixpoint canonical_case (upper : bool) (a : string) : string :=
  match a with
  | EmptyString => EmptyString
  | String c rest =>
      let c' :=
        if upper && is_lower c then ascii_of_nat (nat_of_ascii c - toLower)
        else if negb upper && is_upper c
             then ascii_of_nat (nat_of_ascii c + toLower)
        else c in
      String c' (canonical_case (Ascii.eqb c' "-"%char) rest)
  end.

Definition CanonicalMIMEHeaderKey (s : string) : string :=
  if forallb validHeaderFieldByte (list_ascii_of_string s)
  then canonical_case true s
  else s.

(** *** [net/http.Header]: a map from canonical keys to lists of values *)

Abbreviation Header := (gmap string (list string)).

(** [h.Set(key, value)] replaces whatever values the key had. *)
Definition Header_Set (key value : string) (h : Header) : Header :=
  <[CanonicalMIMEHeaderKey key := [value]]> h.

(** [h.Get(key)] is the first value of the key, or the empty string. *)
Definition Header_Get (key : string) (h : Header) : string :=
  match h !! CanonicalMIMEHeaderKey key with
  | Some (v :: _) => v
  | _ => EmptyString
  end.

(** *** The response writer

    [http.ResponseWriter] is an interface; the object behind it is modelled
    after [httptest.ResponseRecorder], the writer of the repository's tests:
    [HeaderMap] is the live map [w.Header()] returns, [WriteHeader] commits
    the status and snapshots the headers, once; later calls do nothing. *)

Record ResponseWriter := mkResponseWriter {
  Code : Z;
  HeaderMap : Header;
  Body : string;
  wroteHeader : bool;
  snapHeader : Header
}.

Definition NewRecorder : ResponseWriter :=
  {| Code := 200; HeaderMap := ∅; Body := EmptyString;
     wroteHeader := false; snapHeader := ∅ |}.

(** [w.Header().Set(key, value)] *)
Definition rw_HeaderSet (key value : string) (w : ResponseWriter) : ResponseWriter :=
  {| Code := Code w; HeaderMap := Header_Set key value (HeaderMap w);
     Body := Body w; wroteHeader := wroteHeader w; snapHeader := snapHeader w |}.

(** [w.WriteHeader(statusCode)] *)
Definition rw_WriteHeader (statusCode : Z) (w : ResponseWriter) : ResponseWriter :=
  if wroteHeader w then w
  else {| Code := statusCode; HeaderMap := HeaderMap w; Body := Body w;
          wroteHeader := true; snapHeader := HeaderMap w |}.

(** [w.Write(buf)]: commits status 200 when nothing was committed yet.
    Only downstream handlers write a body. *)
Definition rw_Write (buf : string) (w : ResponseWriter) : ResponseWriter :=
  let w := rw_WriteHeader StatusOK w in
  {| Code := Code w; HeaderMap := HeaderMap w; Body := Body w +:+ buf;
     wroteHeader := wroteHeader w; snapHeader := snapHeader w |}.

(** *** [time.Duration] and [fmt.Sprintf("%d", _)] *)

(** A [time.Duration] is an [int64] count of nanoseconds. *)
Abbreviation Duration := Z (only parsing).

Definition Nanosecond : Duration := 1.
Definition Microsecond : Duration := 1000 * Nanosecond.
Definition Millisecond : Duration := 1000 * Microsecond.
Definition Second : Duration := 1000 * Millisecond.

(** [d.Milliseconds()] is [int64(d) / 1e6]; Go's integer division
    truncates toward zero. *)
Definition Milliseconds (d : Duration) : Z := Z.quot d 1000000.

Definition in_int64 (z : Z) : Prop := - 2 ^ 63 <= z < 2 ^ 63.

Definition to_uint64 (z : Z) : Z := z mod 2 ^ 64.

Definition digit_char (d : Z) : ascii := ascii_of_nat (48 + Z.to_nat d).

(** The digit loop of [fmt]'s integer formatting for base 10: digits are
    produced from the right, [for u >= 10 { next := u / 10; buf[i] = '0' + u
    - next*10; u = next }], then the leading digit.  A [uint64] has at most
    20 decimal digits, which bounds the loop. *)
Fixpoint fmt_digits (fuel : nat) (u : Z) (buf : string) : option string :=
  match fuel with
  | O => None
  | S fuel' =>
      if 10 <=? u then
        let next := u / 10 in
        fmt_digits fuel' next (String (digit_char (u - next * 10)) buf)
      else Some (String (digit_char u) buf)
  end.

(** [fmt.Sprintf("%d", n)] for a signed integer [n]: the value is widened
    to [uint64]; a negative value is negated (in [uint64]) and gets a
    leading minus sign. *)
Definition Sprintf_d (n : Z) : string :=
  let u := to_uint64 n in
  let negative := n <? 0 in
  let u := if negative then to_uint64 (- u) else u in
  let digits := default EmptyString (fmt_digits 20 u EmptyString) in
  if negative then String "-" digits else digits.

(** *** What the headers are specified to hold *)

(** The base-10 rendering of an integer, as the Standard Library prints
    it: digits only, no leading zero (zero itself is the single digit 0),
    and a leading minus sign for a negative number. *)
Definition decimal_string (n : Z) : string :=
  NilZero.string_of_int (Z.to_int n).

(** The count of whole milliseconds in a duration of [d] nanoseconds: the
    magnitude is cut down to whole milliseconds and the sign is kept, so
    that a fraction of a millisecond is dropped toward zero. *)
Definition whole_milliseconds (d : Duration) : Z :=
  Z.sgn d * (Z.abs d / 1000000).

(** *** The digit loop on the Standard Library's decimal numbers

    [fmt_uint] is [fmt_digits] producing a [Decimal.uint] instead of a
    string; it links the loop to [decimal_string]. *)
Definition digit_uint (k : Z) (d : Decimal.uint) : Decimal.uint :=
  match k with
  | 0 => Decimal.D0 d | 1 => Decimal.D1 d | 2 => Decimal.D2 d
  | 3 => Decimal.D3 d | 4 => Decimal.D4 d | 5 => Decimal.D5 d
  | 6 => Decimal.D6 d | 7 => Decimal.D7 d | 8 => Decimal.D8 d
  | _ => Decimal.D9 d
  end.

Fixpoint fmt_uint (fuel : nat) (u : Z) (acc : Decimal.uint)
  : option Decimal.uint :=
  match fuel with
  | O => None
  | S fuel' =>
      if 10 <=? u then
        let next := u / 10 in
        fmt_uint fuel' next (digit_uint (u - next * 10) acc)
      else Some (digit_uint u acc)
  end.

(** ** The repository's types *)

(** [RateLimitData] of the advanced rate limiter. [Remaining] and [Limit]
    are Go [int]s, [RetryAfter] a [time.Duration]. *)
Record RateLimitData := mkRateLimitData {
  Remaining : Z;
  Limit : Z;
  RetryAfter : Duration
}.

Section Cerberus.

(** [Request] stands for [*http.Request] values, [Error] for non-nil Go
    [error] values ([None] is [nil]), and [Env] for the state of
    everything the handler does not own: the rate limiter's counters, the
    next handler's state, what the request points to. *)
Variable Request : Type.
Variable Error : Type.
Variable Env : Type.

(** The [RateLimiter] interface: [IsAllowed(r)] returns [(bool, error)]
    and may change the environment. *)
Record RateLimiter := mkRateLimiter {
  IsAllowed : Request → Env → (bool * option Error) * Env
}.

(** The [AdvancedRateLimiter] interface embeds [RateLimiter] and adds
    [GetRateLimitData(r)]. *)
Record AdvancedRateLimiter := mkAdvancedRateLimiter {
  base :> RateLimiter;
  GetRateLimitData : Request → Env → RateLimitData * Env
}.

(** An [http.Handler]: [ServeHTTP(w, r)] works on the writer and the
    environment. *)
Definition Handler : Type :=
  ResponseWriter → Request → Env → ResponseWriter * Env.

(** The calls a gating handler makes, in the order it makes them.
    [CallServeHTTP w r] records the writer as it was handed over. *)
Inductive Event :=
| CallIsAllowed (r : Request)
| CallGetRateLimitData (r : Request)
| CallHeaderSet (key value : string)
| CallWriteHeader (statusCode : Z)
| CallServeHTTP (w : ResponseWriter) (r : Request).

Record World := mkWorld {
  writer : ResponseWriter;
  env : Env;
  calls : list Event
}.

(** *** The handler monad *)

Definition M (A : Type) : Type := World → A * World.

#[local] Instance M_ret : MRet M := λ A a s, (a, s).
#[local] Instance M_bind : MBind M :=
  λ A B f m s, let '(a, s') := m s in f a s'.

Definition log (e : Event) (s : World) : World :=
  {| writer := writer s; env := env s; calls := calls s ++ [e] |}.

(** [rateLimiter.IsAllowed(r)] *)
Definition call_IsAllowed (rateLimiter : RateLimiter) (r : Request)
  : M (bool * option Error) :=
  λ s, let '(res, e') := IsAllowed rateLimiter r (env s) in
       (res, log (CallIsAllowed r)
               {| writer := writer s; env := e'; calls := calls s |}).

(** [rateLimiter.GetRateLimitData(r)] *)
Definition call_GetRateLimitData (rateLimiter : AdvancedRateLimiter)
  (r : Request) : M RateLimitData :=
  λ s, let '(data, e') := GetRateLimitData rateLimiter r (env s) in
       (data, log (CallGetRateLimitData r)
                {| writer := writer s; env := e'; calls := calls s |}).

(** [w.Header().Set(key, value)] *)
Definition w_Header_Set (key value : string) : M unit :=
  λ s, (tt, log (CallHeaderSet key value)
              {| writer := rw_HeaderSet key value (writer s);
                 env := env s; calls := calls s |}).

(** [w.WriteHeader(statusCode)] *)
Definition w_WriteHeader (statusCode : Z) : M unit :=
  λ s, (tt, log (CallWriteHeader statusCode)
              {| writer := rw_WriteHeader statusCode (writer s);
                 env := env s; calls := calls s |}).

(** [next.ServeHTTP(w, r)] *)
Definition next_ServeHTTP (next : Handler) (r : Request) : M unit :=
  λ s, let '(w', e') := next (writer s) r (env s) in
       (tt, log (CallServeHTTP (writer s) r)
              {| writer := w'; env := e'; calls := calls s |}).

(** An [http.HandlerFunc] in the monad: the writer [w] is the monad's. *)
Definition HandlerFunc : Type := Request → M unit.

(** ** middleware.go *)

Definition Middleware (rateLimiter : RateLimiter) (next : Handler)
  : HandlerFunc :=
  λ r,
    '(isAllowed, err) ← call_IsAllowed rateLimiter r;
    match err with
    | Some _ => w_WriteHeader StatusInternalServerError
    | None =>
        if negb isAllowed then w_WriteHeader StatusTooManyRequests
        else next_ServeHTTP next r
    end.

(** ** The advanced middleware *)

Definition AdvancedMiddleware (rateLimiter : AdvancedRateLimiter)
  (next : Handler) : HandlerFunc :=
  λ r,
    '(isAllowed, err) ← call_IsAllowed rateLimiter r;
    match err with
    | Some _ => w_WriteHeader StatusInternalServerError
    | None =>
        data ← call_GetRateLimitData rateLimiter r;
        if negb isAllowed then
          _ ← w_Header_Set "X-RateLimit-Retry-After"
                (Sprintf_d (Milliseconds (RetryAfter data)));
          w_WriteHeader StatusTooManyRequests
        else
          _ ← w_Header_Set "X-RateLimit-Limit" (Sprintf_d (Limit data));
          _ ← w_Header_Set "X-RateLimit-Remaining"
                (Sprintf_d (Remaining data));
          next_ServeHTTP next r
    end.

(** [serve h w r e] runs a handler on writer [w], request [r] and
    environment [e], from an empty call log. *)
Definition serve (h : HandlerFunc) (w : ResponseWriter) (r : Request)
  (e : Env) : World :=
  snd (h r {| writer := w; env := e; calls := [] |}).

(** A gating handler is itself an [http.Handler]. *)
Definition as_Handler (h : HandlerFunc) : Handler :=
  λ w r e, let s := serve h w r e in (writer s, env s).

(** *** Reading the call log *)

Definition is_GetRateLimitData (ev : Event) : bool :=
  match ev with CallGetRateLimitData _ => true | _ => false end.

Definition is_HeaderSet (ev : Event) : bool :=
  match ev with CallHeaderSet _ _ => true | _ => false end.

Definition is_WriteHeader (ev : Event) : bool :=
  match ev with CallWriteHeader _ => true | _ => false end.

Definition is_ServeHTTP (ev : Event) : bool :=
  match ev with CallServeHTTP _ _ => true | _ => false end.

(** A call that may commit the response status: [w.WriteHeader], or the
    next handler, which is free to write the response. *)
Definition is_commit (ev : Event) : bool :=
  is_WriteHeader ev || is_ServeHTTP ev.

Definition count_calls (p : Event → bool) (l : list Event) : nat :=
  length (List.filter p l).

(** What both handlers do when the limiter fails. *)
Definition failure_response (w : ResponseWriter) (r : Request) (e1 : Env)
  (s : World) : Prop :=
  calls s = [CallIsAllowed r; CallWriteHeader 500] ∧
  count_calls is_ServeHTTP (calls s) = 0%nat ∧
  count_calls is_GetRateLimitData (calls s) = 0%nat ∧
  count_calls is_HeaderSet (calls s) = 0%nat ∧
  writer s = rw_WriteHeader 500 w ∧
  env s = e1 ∧
  Body (writer s) = Body w ∧
  HeaderMap (writer s) = HeaderMap w ∧
  (wroteHeader w = false →
   Code (writer s) = 500 ∧ snapHeader (writer s) = HeaderMap w).

Definition is_IsAllowed (ev : Event) : bool :=
  match ev with CallIsAllowed _ => true | _ => false end.

End Cerberus.

Arguments IsAllowed {Request Error Env}.
Arguments GetRateLimitData {Request Error Env}.
Arguments base {Request Error Env}.
Arguments mkRateLimiter {Request Error Env}.
Arguments mkAdvancedRateLimiter {Request Error Env}.
Arguments CallIsAllowed {Request}.
Arguments CallGetRateLimitData {Request}.
Arguments CallHeaderSet {Request}.
Arguments CallWriteHeader {Request}.
Arguments CallServeHTTP {Request}.
Arguments writer {Request Env}.
Arguments env {Request Env}.
Arguments calls {Request Env}.
Arguments Middleware {Request Error Env}.
Arguments AdvancedMiddleware {Request Error Env}.
Arguments serve {Request Env}.
Arguments as_Handler {Request Env}.
Arguments is_GetRateLimitData {Request}.
Arguments is_HeaderSet {Request}.
Arguments is_WriteHeader {Request}.
Arguments is_ServeHTTP {Request}.
Arguments is_commit {Request}.
Arguments is_IsAllowed {Request}.
Arguments count_calls {Request}.
Arguments failure_response {Request Env}.

(** The three outcomes of [IsAllowed] the handlers branch on: a non-nil
    error wins over the boolean. *)
Inductive Branch := Forwarding | Denying | Failing.

Definition branch_of {Error : Type} (res : bool * option Error) : Branch :=
  match res with
  | (_, Some _) => Failing
  | (false, None) => Denying
  | (true, None) => Forwarding
  end.

(** ** The mock limiters and the handler of the repository's tests *)

Module Tests.

(** Requests are named by their path, errors by their message; the
    environment counts how often the protected handler ran. *)
Definition handler : Handler string nat :=
  λ w _ n, (rw_WriteHeader StatusOK w, S n).

(** [MockRateLimiter] / [MockAdvancedRateLimiter] with fixed answers. *)
Definition mockLimiter (allowed : bool) (err : option string)
  : RateLimiter string string nat :=
  {| IsAllowed := λ _ n, ((allowed, err), n) |}.

Definition mockAdvancedLimiter (allowed : bool) (err : option string)
  (data : RateLimitData) : AdvancedRateLimiter string string nat :=
  {| base := mockLimiter allowed err;
     GetRateLimitData := λ _ n, (data, n) |}.

Definition req : string := "/api".

Definition err : option string := Some "rate limiter error".

(** The snapshots of the advanced tests, and one no sane limiter returns. *)
Definition snapshot_denied : RateLimitData :=
  {| Remaining := 0; Limit := 100; RetryAfter := Second |}.

Definition snapshot_allowed : RateLimitData :=
  {| Remaining := 99; Limit := 100; RetryAfter := 0 |}.

Definition snapshot_odd : RateLimitData :=
  {| Remaining := -1; Limit := -2; RetryAfter := - Second |}.

(** A protected handler that sets a header of its own and writes a body. *)
Definition greeter : Handler string nat :=
  λ w _ n,
    (rw_Write "hello" (rw_HeaderSet "Content-Type" "text/plain" w), S n).

(** A wait shorter than a millisecond, and an inner limiter's snapshot. *)
Definition snapshot_brief : RateLimitData :=
  {| Remaining := 0; Limit := 100; RetryAfter := 999999 |}.

Definition snapshot_inner : RateLimitData :=
  {| Remaining := 4; Limit := 5; RetryAfter := 2 * Second |}.

(** A recorder whose header an outer handler has already sent. *)
Definition sentRecorder : ResponseWriter :=
  rw_WriteHeader StatusOK NewRecorder.

(** A recorder on which an outer handler left quota headers, one of them
    with two values. *)
Definition staleRecorder : ResponseWriter :=
  {| Code := 200;
     HeaderMap := <["X-Ratelimit-Limit" := ["1"; "2"]]>
                    (<["X-Ratelimit-Retry-After" := ["5"]]> ∅);
     Body := EmptyString; wroteHeader := false; snapHeader := ∅ |}.

End Tests.

(** ** [Sprintf("%d", n)] prints the decimal rendering of [n] *)

Ltac digit_cases k :=
  let H := fresh in
  assert (H : k = 0 ∨ k = 1 ∨ k = 2 ∨ k = 3 ∨ k = 4 ∨ k = 5 ∨ k = 6 ∨
              k = 7 ∨ k = 8 ∨ k = 9) by lia;
  destruct H as [->|[->|[->|[->|[->|[->|[->|[->|[->| ->]]]]]]]]].

Lemma string_of_digit_uint k acc :
  0 <= k < 10 →
  NilEmpty.string_of_uint (digit_uint k acc) =
  String (digit_char k) (NilEmpty.string_of_uint acc).
Proof. intros Hk. digit_cases k; reflexivity. Qed.

Lemma of_lu_digit_uint k l :
  0 <= k < 10 →
  DecimalPos.Unsigned.of_lu (digit_uint k l) =
  (Z.to_N k + 10 * DecimalPos.Unsigned.of_lu l)%N.
Proof. intros Hk. digit_cases k; reflexivity. Qed.

Lemma revapp_digit_uint k l acc :
  Decimal.revapp (digit_uint k l) acc = Decimal.revapp l (digit_uint k acc).
Proof. unfold digit_uint. repeat case_match; reflexivity. Qed.

Lemma unorm_digit_uint k acc :
  0 < k < 10 → Decimal.unorm (digit_uint k acc) = digit_uint k acc.
Proof. intros Hk. digit_cases k; reflexivity || lia. Qed.

Lemma fmt_digits_uint fuel : ∀ u acc,
  0 <= u →
  fmt_digits fuel u (NilEmpty.string_of_uint acc) =
  NilEmpty.string_of_uint <$> fmt_uint fuel u acc.
Proof.
  induction fuel as [|fuel IH]; intros u acc Hu; [done|]. cbn.
  destruct (Z.leb_spec 10 u).
  - rewrite <- string_of_digit_uint
      by (pose proof (Z.mod_pos_bound u 10); pose proof (Z.div_mod u 10); lia).
    apply IH. apply Z.div_pos; lia.
  - cbn. by rewrite string_of_digit_uint by lia.
Qed.

Lemma fmt_uint_is_Some fuel : ∀ u acc,
  0 <= u < 10 ^ Z.of_nat (S fuel) → is_Some (fmt_uint (S fuel) u acc).
Proof.
  induction fuel as [|fuel IH]; intros u acc Hu.
  - cbn. destruct (Z.leb_spec 10 u); [|done].
    change (10 ^ Z.of_nat 1) with 10 in Hu. lia.
  - cbn [fmt_uint]. destruct (Z.leb_spec 10 u); [|done].
    apply IH. rewrite Nat2Z.inj_succ, Z.pow_succ_r in Hu by lia.
    split; [apply Z.div_pos; lia|]. apply Z.div_lt_upper_bound; lia.
Qed.

(** value, little-endian reading of the result *)
Lemma fmt_uint_value fuel : ∀ u acc d,
  0 <= u → fmt_uint fuel u acc = Some d →
  ∃ l, d = Decimal.revapp l acc ∧ DecimalPos.Unsigned.of_lu l = Z.to_N u.
Proof.
  induction fuel as [|fuel IH]; intros u acc d Hu; [done|]. cbn.
  pose proof (Z.mod_pos_bound u 10) as Hm. pose proof (Z.div_mod u 10) as Hd.
  destruct (Z.leb_spec 10 u).
  - intros Hf. apply IH in Hf as (l & -> & Hl); [|apply Z.div_pos; lia].
    exists (digit_uint (u - u / 10 * 10) l). split.
    + by rewrite revapp_digit_uint.
    + rewrite of_lu_digit_uint, Hl by lia. lia.
  - intros [= <-]. exists (digit_uint u Decimal.Nil). split.
    + by rewrite revapp_digit_uint.
    + rewrite of_lu_digit_uint by lia. cbn. lia.
Qed.

Lemma fmt_uint_unorm fuel : ∀ u acc d,
  0 < u → fmt_uint fuel u acc = Some d → Decimal.unorm d = d.
Proof.
  induction fuel as [|fuel IH]; intros u acc d Hu; [done|]. cbn.
  destruct (Z.leb_spec 10 u).
  - apply IH. apply Z.div_str_pos. lia.
  - intros [= <-]. apply unorm_digit_uint. lia.
Qed.

Lemma fmt_uint_to_uint u d :
  0 <= u → fmt_uint 20 u Decimal.Nil = Some d → d = N.to_uint (Z.to_N u).
Proof.
  intros Hu H.
  destruct (decide (u = 0)) as [->|Hne].
  - cbn in H. by injection H as <-.
  - assert (0 < u) as Hpos by lia.
    pose proof (fmt_uint_unorm _ _ _ _ Hpos H) as Hn.
    apply fmt_uint_value in H as (l & -> & Hl); [|done].
    rewrite <- Hl.
    change (Decimal.revapp l Decimal.Nil) with (Decimal.rev l) in *.
    rewrite <- DecimalPos.Unsigned.of_lu_rev.
    change (Pos.of_uint (Decimal.rev l)) with (N.of_uint (Decimal.rev l)).
    by rewrite DecimalN.Unsigned.to_of.
Qed.

Lemma string_of_to_uint_nonnil n :
  NilZero.string_of_uint (N.to_uint n) = NilEmpty.string_of_uint (N.to_uint n).
Proof.
  unfold NilZero.string_of_uint. destruct (N.to_uint n) eqn:E; try done.
  destruct n; [done|]. cbn in E.
  by apply DecimalPos.Unsigned.to_uint_nonnil in E.
Qed.

Lemma fmt_digits_decimal u :
  0 <= u < 2 ^ 64 →
  fmt_digits 20 u EmptyString =
    Some (NilZero.string_of_uint (N.to_uint (Z.to_N u))).
Proof.
  intros Hu.
  destruct (fmt_uint_is_Some 19 u Decimal.Nil) as [d Hd].
  { split; [lia|]. eapply Z.lt_trans; [apply Hu|]. by vm_compute. }
  change EmptyString with (NilEmpty.string_of_uint Decimal.Nil).
  rewrite fmt_digits_uint, Hd by lia. cbn.
  apply fmt_uint_to_uint in Hd as ->; [|lia].
  by rewrite string_of_to_uint_nonnil.
Qed.

Lemma Sprintf_d_decimal n : in_int64 n → Sprintf_d n = decimal_string n.
Proof.
  unfold in_int64, Sprintf_d, decimal_string, to_uint64. intros Hn.
  change (2 ^ 63) with 9223372036854775808 in Hn.
  destruct (Z.ltb_spec n 0).
  - replace (- (n mod 2 ^ 64) mod 2 ^ 64) with (- n).
    2:{ change (2 ^ 64) with 18446744073709551616. 
        replace (n mod 18446744073709551616) with (n + 18446744073709551616)
          by (apply Z.mod_unique with (q := -1); lia).
        apply Z.mod_unique with (q := -1); lia. }
    rewrite fmt_digits_decimal.
    2:{ change (2 ^ 64) with 18446744073709551616. lia. }
    destruct n as [|p|p]; try lia. reflexivity.
  - rewrite Z.mod_small.
    2:{ change (2 ^ 64) with 18446744073709551616. lia. }
    rewrite fmt_digits_decimal.
    2:{ change (2 ^ 64) with 18446744073709551616. lia. }
    destruct n as [|p|p]; try lia; reflexivity.
Qed.

Lemma decimal_string_neg n :
  n < 0 → decimal_string n = String "-" (decimal_string (- n)).
Proof. destruct n as [|p|p]; try lia. intros _. reflexivity. Qed.

Lemma decimal_string_read n :
  Z.of_int <$> NilZero.int_of_string (decimal_string n) = Some n.
Proof.
  unfold decimal_string. rewrite NilZero.isi.
  - cbn. by rewrite DecimalZ.of_to.
  - destruct n; cbn; try done. intros [= E].
    by apply DecimalPos.Unsigned.to_uint_nonnil in E.
  - destruct n; cbn; try done. intros [= E].
    by apply DecimalPos.Unsigned.to_uint_nonnil in E.
Qed.

Lemma Milliseconds_whole d : Milliseconds d = whole_milliseconds d.
Proof.
  unfold Milliseconds, whole_milliseconds. rewrite Z.quot_div by done.
  change (Z.sgn 1000000) with 1. change (Z.abs 1000000) with 1000000. lia.
Qed.

Lemma in_int64_Milliseconds d : in_int64 d → in_int64 (Milliseconds d).
Proof.
  unfold in_int64, Milliseconds. change (2 ^ 63) with 9223372036854775808.
  intros Hd. Z.to_euclidean_division_equations. lia.
Qed.

Lemma whole_milliseconds_spec d :
  Z.abs (whole_milliseconds d) * 1000000 <= Z.abs d
    < (Z.abs (whole_milliseconds d) + 1) * 1000000 ∧
  0 <= whole_milliseconds d * d.
Proof.
  unfold whole_milliseconds.
  pose proof (Z.mod_pos_bound (Z.abs d) 1000000 ltac:(done)) as Hm.
  pose proof (Z.div_mod (Z.abs d) 1000000 ltac:(done)) as Hd.
  assert (0 <= Z.abs d / 1000000) as Hq by (apply Z.div_pos; lia).
  revert Hm Hd Hq. generalize (Z.abs d / 1000000) (Z.abs d `mod` 1000000).
  intros q m Hm Hd Hq.
  destruct (Z.sgn_spec d) as [[? ->]|[[? ->]|[? ->]]]; nia.
Qed.

(** ** What the handlers do, branch by branch *)

Section Protocol.

Context {Request Error Env : Type}.
Implicit Types (w : ResponseWriter) (r : Request) (e : Env).
Implicit Types (next : Handler Request Env).

(** Unfolds one run of a handler down to the limiter's answers. *)
Ltac run_handler :=
  unfold serve, Middleware, AdvancedMiddleware, mbind, M_bind,
    call_IsAllowed, call_GetRateLimitData, w_Header_Set, w_WriteHeader,
    next_ServeHTTP, log; cbn [writer env calls fst snd app].

Lemma serve_Middleware (rl : RateLimiter Request Error Env) next w r e :
  serve (Middleware rl next) w r e =
  let '((isAllowed, err), e1) := IsAllowed rl r e in
  match err with
  | Some _ =>
      {| writer := rw_WriteHeader StatusInternalServerError w; env := e1;
         calls := [CallIsAllowed r; CallWriteHeader StatusInternalServerError] |}
  | None =>
      if isAllowed then
        {| writer := (next w r e1).1; env := (next w r e1).2;
           calls := [CallIsAllowed r; CallServeHTTP w r] |}
      else
        {| writer := rw_WriteHeader StatusTooManyRequests w; env := e1;
           calls := [CallIsAllowed r; CallWriteHeader StatusTooManyRequests] |}
  end.
Proof.
  run_handler.
  destruct (IsAllowed rl r e) as [[isAllowed [err|]] e1]; cbn; [done|].
  destruct isAllowed; cbn; [|done].
  by destruct (next w r e1).
Qed.

Lemma serve_AdvancedMiddleware (rl : AdvancedRateLimiter Request Error Env)
  next w r e :
  serve (AdvancedMiddleware rl next) w r e =
  let '((isAllowed, err), e1) := IsAllowed rl r e in
  match err with
  | Some _ =>
      {| writer := rw_WriteHeader StatusInternalServerError w; env := e1;
         calls := [CallIsAllowed r; CallWriteHeader StatusInternalServerError] |}
  | None =>
      let '(data, e2) := GetRateLimitData rl r e1 in
      if isAllowed then
        let w2 :=
          rw_HeaderSet "X-RateLimit-Remaining" (Sprintf_d (Remaining data))
            (rw_HeaderSet "X-RateLimit-Limit" (Sprintf_d (Limit data)) w) in
        {| writer := (next w2 r e2).1; env := (next w2 r e2).2;
           calls := [CallIsAllowed r; CallGetRateLimitData r;
                     CallHeaderSet "X-RateLimit-Limit" (Sprintf_d (Limit data));
                     CallHeaderSet "X-RateLimit-Remaining"
                       (Sprintf_d (Remaining data));
                     CallServeHTTP w2 r] |}
      else
        let v := Sprintf_d (Milliseconds (RetryAfter data)) in
        {| writer := rw_WriteHeader StatusTooManyRequests
                       (rw_HeaderSet "X-RateLimit-Retry-After" v w);
           env := e2;
           calls := [CallIsAllowed r; CallGetRateLimitData r;
                     CallHeaderSet "X-RateLimit-Retry-After" v;
                     CallWriteHeader StatusTooManyRequests] |}
  end.
Proof.
  run_handler.
  destruct (IsAllowed rl r e) as [[isAllowed [err|]] e1]; cbn; [done|].
  destruct (GetRateLimitData rl r e1) as [data e2]; cbn.
  destruct isAllowed; cbn; [|done].
  by destruct (next _ r e2).
Qed.

Lemma Code_rw_WriteHeader statusCode w :
  wroteHeader w = false →
  Code (rw_WriteHeader statusCode w) = statusCode ∧
  snapHeader (rw_WriteHeader statusCode w) = HeaderMap w.
Proof. unfold rw_WriteHeader. by intros ->. Qed.

Lemma HeaderMap_rw_WriteHeader statusCode w :
  HeaderMap (rw_WriteHeader statusCode w) = HeaderMap w.
Proof. unfold rw_WriteHeader. by destruct (wroteHeader w). Qed.

Lemma Body_rw_WriteHeader statusCode w :
  Body (rw_WriteHeader statusCode w) = Body w.
Proof. unfold rw_WriteHeader. by destruct (wroteHeader w). Qed.

(** C1: when [IsAllowed] returns [(true, nil)], [Middleware] makes one
    call after it, [next.ServeHTTP(w, r)], on the writer and the request
    it was given; it calls neither [WriteHeader] nor [Header().Set], and
    the response is whatever the next handler made of the writer. *)
Theorem Middleware_allowed_forwards
  (rl : RateLimiter Request Error Env) next w r e e1 :
  IsAllowed rl r e = ((true, None), e1) →
  let s := serve (Middleware rl next) w r e in
  calls s = [CallIsAllowed r; CallServeHTTP w r] ∧
  count_calls is_ServeHTTP (calls s) = 1%nat ∧
  count_calls is_WriteHeader (calls s) = 0%nat ∧
  count_calls is_HeaderSet (calls s) = 0%nat ∧
  (writer s, env s) = next w r e1.
Proof.
  intros H s. subst s. rewrite serve_Middleware, H. cbn.
  repeat split; try done. by destruct (next w r e1).
Qed.

(** C2: when [IsAllowed] returns [(false, nil)], [Middleware] calls
    [w.WriteHeader(429)] and nothing else: the next handler is not
    called, body and headers stay as they were, and a writer that had
    not sent its header yet ends with status 429. *)
Theorem Middleware_denied_429
  (rl : RateLimiter Request Error Env) next w r e e1 :
  IsAllowed rl r e = ((false, None), e1) →
  let s := serve (Middleware rl next) w r e in
  calls s = [CallIsAllowed r; CallWriteHeader 429] ∧
  count_calls is_ServeHTTP (calls s) = 0%nat ∧
  count_calls is_HeaderSet (calls s) = 0%nat ∧
  writer s = rw_WriteHeader 429 w ∧
  env s = e1 ∧
  Body (writer s) = Body w ∧
  HeaderMap (writer s) = HeaderMap w ∧
  (wroteHeader w = false →
   Code (writer s) = 429 ∧ snapHeader (writer s) = HeaderMap w).
Proof.
  intros H s. subst s. rewrite serve_Middleware, H. cbn.
  repeat split; try done.
  - apply Body_rw_WriteHeader.
  - apply HeaderMap_rw_WriteHeader.
  - by apply Code_rw_WriteHeader.
  - by apply Code_rw_WriteHeader.
Qed.

Lemma failure_response_intro w r e1 :
  failure_response w r e1
    {| writer := rw_WriteHeader StatusInternalServerError w; env := e1;
       calls := [CallIsAllowed r; CallWriteHeader StatusInternalServerError] |}.
Proof.
  unfold failure_response. cbn. repeat split; try done.
  - apply Body_rw_WriteHeader.
  - apply HeaderMap_rw_WriteHeader.
  - by apply Code_rw_WriteHeader.
  - by apply Code_rw_WriteHeader.
Qed.

(** C3: when [IsAllowed] returns a non-nil error, whatever boolean comes
    with it, [Middleware] and [AdvancedMiddleware] both call
    [w.WriteHeader(500)] and nothing else: no next handler, no
    [GetRateLimitData], no header set, no body. *)
Theorem failure_responds_500 next w r e e1 (allowed : bool) (err : Error) :
  (∀ rl : RateLimiter Request Error Env,
     IsAllowed rl r e = ((allowed, Some err), e1) →
     failure_response w r e1 (serve (Middleware rl next) w r e)) ∧
  (∀ rl : AdvancedRateLimiter Request Error Env,
     IsAllowed rl r e = ((allowed, Some err), e1) →
     failure_response w r e1 (serve (AdvancedMiddleware rl next) w r e)).
Proof.
  split; intros rl H.
  - rewrite serve_Middleware, H. apply failure_response_intro.
  - rewrite serve_AdvancedMiddleware, H. apply failure_response_intro.
Qed.

(** C4: [AdvancedMiddleware] calls [GetRateLimitData] once when
    [IsAllowed] returns a nil error, allowed or not, and not at all when
    the error is non-nil. *)
Theorem GetRateLimitData_called_once_unless_failure
  (rl : AdvancedRateLimiter Request Error Env) next w r e :
  count_calls is_GetRateLimitData
    (calls (serve (AdvancedMiddleware rl next) w r e)) =
  match branch_of (IsAllowed rl r e).1 with
  | Forwarding | Denying => 1%nat
  | Failing => 0%nat
  end.
Proof.
  rewrite serve_AdvancedMiddleware.
  destruct (IsAllowed rl r e) as [[isAllowed [err|]] e1]; cbn.
  - by destruct isAllowed.
  - destruct (GetRateLimitData rl r e1) as [data e2].
    by destruct isAllowed.
Qed.

(** C9: [Middleware] never calls [w.Header().Set]: when it forwards, the
    response is the next handler's work on the writer as it came in; when
    it denies or fails, the header map is the one it was given, and that
    is what a writer that had not sent its header yet sends. *)
Theorem Middleware_adds_no_headers
  (rl : RateLimiter Request Error Env) next w r e :
  let s := serve (Middleware rl next) w r e in
  count_calls is_HeaderSet (calls s) = 0%nat ∧
  match branch_of (IsAllowed rl r e).1 with
  | Forwarding => (writer s, env s) = next w r (IsAllowed rl r e).2
  | Denying | Failing =>
      HeaderMap (writer s) = HeaderMap w ∧
      (wroteHeader w = false → snapHeader (writer s) = HeaderMap w)
  end.
Proof.
  intros s. subst s. rewrite serve_Middleware.
  destruct (IsAllowed rl r e) as [[isAllowed [err|]] e1]; cbn.
  - destruct isAllowed; cbn; (split; [done|]);
      (split; [apply HeaderMap_rw_WriteHeader | by apply Code_rw_WriteHeader]).
  - destruct isAllowed; cbn; (split; [done|]).
    + by destruct (next w r e1).
    + split; [apply HeaderMap_rw_WriteHeader | by apply Code_rw_WriteHeader].
Qed.

(** *** Header lookups *)

Lemma Header_Get_Set key value (h : Header) :
  Header_Get key (Header_Set key value h) = value.
Proof. unfold Header_Get, Header_Set. by rewrite lookup_insert_eq. Qed.

Lemma Header_Set_lookup_ne key value (h : Header) (k : string) :
  k ≠ CanonicalMIMEHeaderKey key →
  Header_Set key value h !! k = h !! k.
Proof. intros Hne. unfold Header_Set. by rewrite lookup_insert_ne. Qed.

Lemma Header_Get_Set_ne key key' value (h : Header) :
  CanonicalMIMEHeaderKey key' ≠ CanonicalMIMEHeaderKey key →
  Header_Get key' (Header_Set key value h) = Header_Get key' h.
Proof. intros Hne. unfold Header_Get. by rewrite Header_Set_lookup_ne. Qed.

(** The three header names of the advanced middleware have three
    different canonical keys. *)
Lemma canonical_Retry_After :
  CanonicalMIMEHeaderKey "X-RateLimit-Retry-After" = "X-Ratelimit-Retry-After".
Proof. vm_compute. reflexivity. Qed.

Lemma canonical_Limit :
  CanonicalMIMEHeaderKey "X-RateLimit-Limit" = "X-Ratelimit-Limit".
Proof. vm_compute. reflexivity. Qed.

Lemma canonical_Remaining :
  CanonicalMIMEHeaderKey "X-RateLimit-Remaining" = "X-Ratelimit-Remaining".
Proof. vm_compute. reflexivity. Qed.

Ltac key_ne :=
  rewrite ?canonical_Retry_After, ?canonical_Limit, ?canonical_Remaining;
  apply String.eqb_neq; vm_compute; reflexivity.

(** C5: when [IsAllowed] returns [(false, nil)], [AdvancedMiddleware]
    sets one header, X-RateLimit-Retry-After, then calls
    [w.WriteHeader(429)]; the next handler is not called, every other
    header (X-RateLimit-Limit and X-RateLimit-Remaining among them) is as
    it was on entry, and a writer that had not sent its header yet ends
    with status 429. *)
Theorem AdvancedMiddleware_denied_retry_after
  (rl : AdvancedRateLimiter Request Error Env) next w r e e1 data e2 :
  IsAllowed rl r e = ((false, None), e1) →
  GetRateLimitData rl r e1 = (data, e2) →
  let s := serve (AdvancedMiddleware rl next) w r e in
  let v := Sprintf_d (Milliseconds (RetryAfter data)) in
  calls s = [CallIsAllowed r; CallGetRateLimitData r;
             CallHeaderSet "X-RateLimit-Retry-After" v;
             CallWriteHeader 429] ∧
  count_calls is_ServeHTTP (calls s) = 0%nat ∧
  List.filter is_HeaderSet (calls s) =
    [CallHeaderSet "X-RateLimit-Retry-After" v] ∧
  env s = e2 ∧
  Body (writer s) = Body w ∧
  HeaderMap (writer s) =
    Header_Set "X-RateLimit-Retry-After" v (HeaderMap w) ∧
  Header_Get "X-RateLimit-Retry-After" (HeaderMap (writer s)) = v ∧
  (∀ k : string, k ≠ CanonicalMIMEHeaderKey "X-RateLimit-Retry-After" →
     HeaderMap (writer s) !! k = HeaderMap w !! k) ∧
  Header_Get "X-RateLimit-Limit" (HeaderMap (writer s)) =
    Header_Get "X-RateLimit-Limit" (HeaderMap w) ∧
  Header_Get "X-RateLimit-Remaining" (HeaderMap (writer s)) =
    Header_Get "X-RateLimit-Remaining" (HeaderMap w) ∧
  (wroteHeader w = false →
   Code (writer s) = 429 ∧
   snapHeader (writer s) =
     Header_Set "X-RateLimit-Retry-After" v (HeaderMap w)).
Proof.
  intros H1 H2 s v. subst s.
  rewrite serve_AdvancedMiddleware, H1, H2. cbn [writer env calls].
  fold v. rewrite HeaderMap_rw_WriteHeader, Body_rw_WriteHeader. cbn.
  repeat split; try done.
  - apply Header_Get_Set.
  - intros k Hk. by apply Header_Set_lookup_ne.
  - apply Header_Get_Set_ne. key_ne.
  - apply Header_Get_Set_ne. key_ne.
  - by apply Code_rw_WriteHeader.
  - by apply Code_rw_WriteHeader.
Qed.

(** C7: when [IsAllowed] returns [(true, nil)] and the snapshot is
    [data], [AdvancedMiddleware] sets X-RateLimit-Limit to the decimal
    rendering of [data.Limit] and X-RateLimit-Remaining to that of
    [data.Remaining], sets no other header (X-RateLimit-Retry-After is as
    it was on entry), and then calls the next handler once, on the writer
    holding both headers; the response is the next handler's. *)
Theorem AdvancedMiddleware_allowed_headers
  (rl : AdvancedRateLimiter Request Error Env) next w r e e1 data e2 :
  IsAllowed rl r e = ((true, None), e1) →
  GetRateLimitData rl r e1 = (data, e2) →
  in_int64 (Limit data) → in_int64 (Remaining data) →
  let s := serve (AdvancedMiddleware rl next) w r e in
  let w2 :=
    rw_HeaderSet "X-RateLimit-Remaining" (decimal_string (Remaining data))
      (rw_HeaderSet "X-RateLimit-Limit" (decimal_string (Limit data)) w) in
  calls s = [CallIsAllowed r; CallGetRateLimitData r;
             CallHeaderSet "X-RateLimit-Limit" (decimal_string (Limit data));
             CallHeaderSet "X-RateLimit-Remaining"
               (decimal_string (Remaining data));
             CallServeHTTP w2 r] ∧
  count_calls is_ServeHTTP (calls s) = 1%nat ∧
  count_calls is_WriteHeader (calls s) = 0%nat ∧
  Header_Get "X-RateLimit-Limit" (HeaderMap w2) =
    decimal_string (Limit data) ∧
  Header_Get "X-RateLimit-Remaining" (HeaderMap w2) =
    decimal_string (Remaining data) ∧
  Header_Get "X-RateLimit-Retry-After" (HeaderMap w2) =
    Header_Get "X-RateLimit-Retry-After" (HeaderMap w) ∧
  (Code w2, Body w2, wroteHeader w2, snapHeader w2) =
    (Code w, Body w, wroteHeader w, snapHeader w) ∧
  (writer s, env s) = next w2 r e2.
Proof.
  intros H1 H2 HL HR s w2. subst s.
  rewrite serve_AdvancedMiddleware, H1, H2. cbn [writer env calls].
  rewrite !Sprintf_d_decimal by done.
  fold w2. repeat split; try done.
  - subst w2. cbn [rw_HeaderSet HeaderMap].
    rewrite Header_Get_Set_ne by key_ne. apply Header_Get_Set.
  - subst w2. cbn [rw_HeaderSet HeaderMap]. apply Header_Get_Set.
  - subst w2. cbn [rw_HeaderSet HeaderMap].
    rewrite !Header_Get_Set_ne by key_ne. reflexivity.
  - by destruct (next w2 r e2).
Qed.

(** C8: in every run of [AdvancedMiddleware], each [w.Header().Set] call
    comes before each call that may commit the status
    ([w.WriteHeader], or the next handler); every run has such a call,
    and it is the last one. *)
Theorem AdvancedMiddleware_headers_before_commit
  (rl : AdvancedRateLimiter Request Error Env) next w r e :
  let s := serve (AdvancedMiddleware rl next) w r e in
  (∀ (i j : nat) (ev_set ev_commit : Event Request),
     calls s !! i = Some ev_set → is_HeaderSet ev_set = true →
     calls s !! j = Some ev_commit → is_commit ev_commit = true →
     (i < j)%nat) ∧
  (∃ ev, last (calls s) = Some ev ∧ is_commit ev = true) ∧
  count_calls is_commit (calls s) = 1%nat.
Proof.
  intros s. subst s. rewrite serve_AdvancedMiddleware.
  destruct (IsAllowed rl r e) as [[isAllowed [err|]] e1].
  - cbn. split; [|split; [by eexists|done]].
    intros [|[|[|]]] j ev1 ev2 Hi Hs Hj Hc; simplify_eq/=.
  - destruct (GetRateLimitData rl r e1) as [data e2].
    destruct isAllowed; cbn; (split; [|split; [by eexists|done]]).
    + intros [|[|[|[|[|]]]]] [|[|[|[|[|]]]]] ev1 ev2 Hi Hs Hj Hc;
        simplify_eq/=; lia.
    + intros [|[|[|[|]]]] [|[|[|[|]]]] ev1 ev2 Hi Hs Hj Hc;
        simplify_eq/=; lia.
Qed.

(** The part of the call log that sets headers, by branch. *)
Lemma AdvancedMiddleware_header_calls
  (rl : AdvancedRateLimiter Request Error Env) next w r e allowed e1 data e2 :
  IsAllowed rl r e = ((allowed, None), e1) →
  GetRateLimitData rl r e1 = (data, e2) →
  List.filter is_HeaderSet (calls (serve (AdvancedMiddleware rl next) w r e)) =
    if allowed then
      [CallHeaderSet "X-RateLimit-Limit" (Sprintf_d (Limit data));
       CallHeaderSet "X-RateLimit-Remaining" (Sprintf_d (Remaining data))]
    else
      [CallHeaderSet "X-RateLimit-Retry-After"
         (Sprintf_d (Milliseconds (RetryAfter data)))].
Proof.
  intros H1 H2. rewrite serve_AdvancedMiddleware, H1, H2.
  by destruct allowed.
Qed.

Lemma AdvancedMiddleware_denied_writer
  (rl : AdvancedRateLimiter Request Error Env) next w r e e1 data e2 :
  IsAllowed rl r e = ((false, None), e1) →
  GetRateLimitData rl r e1 = (data, e2) →
  HeaderMap (writer (serve (AdvancedMiddleware rl next) w r e)) =
    Header_Set "X-RateLimit-Retry-After"
      (Sprintf_d (Milliseconds (RetryAfter data))) (HeaderMap w).
Proof.
  intros H1 H2. rewrite serve_AdvancedMiddleware, H1, H2. cbn [writer].
  by rewrite HeaderMap_rw_WriteHeader.
Qed.

(** C6: on the deny path the X-RateLimit-Retry-After value is the count
    of whole milliseconds in [RetryAfter] (the sub-millisecond part
    dropped toward zero) in base 10: the string reads back, as a signed
    decimal numeral, to that count, which is within a millisecond of the
    duration and never beyond it.  One second gives 1000. *)
Theorem retry_after_header_whole_milliseconds
  (rl : AdvancedRateLimiter Request Error Env) next w r e e1 data e2 :
  IsAllowed rl r e = ((false, None), e1) →
  GetRateLimitData rl r e1 = (data, e2) →
  in_int64 (RetryAfter data) →
  let s := serve (AdvancedMiddleware rl next) w r e in
  let v := Header_Get "X-RateLimit-Retry-After" (HeaderMap (writer s)) in
  let ms := whole_milliseconds (RetryAfter data) in
  List.filter is_HeaderSet (calls s) =
    [CallHeaderSet "X-RateLimit-Retry-After" v] ∧
  v = decimal_string ms ∧
  Z.of_int <$> NilZero.int_of_string v = Some ms ∧
  Z.abs ms * 1000000 <= Z.abs (RetryAfter data) < (Z.abs ms + 1) * 1000000 ∧
  0 <= ms * RetryAfter data ∧
  Sprintf_d (Milliseconds Second) = "1000"%string.
Proof.
  intros H1 H2 Hd s v ms.
  assert (v = decimal_string ms) as Hv.
  { subst v s ms. erewrite AdvancedMiddleware_denied_writer by done.
    rewrite Header_Get_Set, <- Milliseconds_whole.
    apply Sprintf_d_decimal. by apply in_int64_Milliseconds. }
  repeat split.
  - subst s. erewrite AdvancedMiddleware_header_calls by done. cbn.
    rewrite Hv. subst ms. rewrite <- Milliseconds_whole.
    by rewrite Sprintf_d_decimal by by apply in_int64_Milliseconds.
  - done.
  - rewrite Hv. apply decimal_string_read.
  - apply whole_milliseconds_spec.
  - apply whole_milliseconds_spec.
  - apply whole_milliseconds_spec.
Qed.

(** C10: [AdvancedMiddleware] renders the snapshot as it is: whatever
    [int]s and duration the snapshot holds (negative, or remaining above
    limit), the headers set are the decimal renderings of exactly those
    values, a negative one with a leading minus sign, and which branch
    runs depends on the decision alone.  [Remaining = -1] gives -1, a
    [RetryAfter] of minus one second gives -1000. *)
Theorem AdvancedMiddleware_renders_snapshot_as_is
  (rl : AdvancedRateLimiter Request Error Env) next w r e
  (allowed : bool) e1 data e2 :
  IsAllowed rl r e = ((allowed, None), e1) →
  GetRateLimitData rl r e1 = (data, e2) →
  in_int64 (Remaining data) → in_int64 (Limit data) →
  in_int64 (RetryAfter data) →
  let s := serve (AdvancedMiddleware rl next) w r e in
  List.filter is_HeaderSet (calls s) =
    (if allowed then
       [CallHeaderSet "X-RateLimit-Limit" (decimal_string (Limit data));
        CallHeaderSet "X-RateLimit-Remaining"
          (decimal_string (Remaining data))]
     else
       [CallHeaderSet "X-RateLimit-Retry-After"
          (decimal_string (whole_milliseconds (RetryAfter data)))]) ∧
  count_calls is_ServeHTTP (calls s) = (if allowed then 1 else 0)%nat ∧
  count_calls is_WriteHeader (calls s) = (if allowed then 0 else 1)%nat ∧
  (∀ n : Z, n < 0 →
     decimal_string n = String "-" (decimal_string (- n))) ∧
  Sprintf_d (-1) = "-1"%string ∧
  Sprintf_d (Milliseconds (- Second)) = "-1000"%string.
Proof.
  intros H1 H2 HR HL HD s. subst s. repeat split.
  - erewrite AdvancedMiddleware_header_calls by done.
    rewrite <- Milliseconds_whole.
    rewrite !Sprintf_d_decimal by (done || by apply in_int64_Milliseconds).
    done.
  - rewrite serve_AdvancedMiddleware, H1, H2. by destruct allowed.
  - rewrite serve_AdvancedMiddleware, H1, H2. by destruct allowed.
  - apply decimal_string_neg.
Qed.

End Protocol.

(** ** The theorems at the test suite's limiters *)

Section Scenarios.

Import Tests.

(** Allowed, basic handler: the protected handler ran once and its 200
    is the response. *)
Lemma Middleware_allowed_forwards_witness :
  IsAllowed (mockLimiter true None) req 0%nat = ((true, None), 0%nat) ∧
  let s := serve (Middleware (mockLimiter true None) handler)
             NewRecorder req 0%nat in
  calls s = [CallIsAllowed req; CallServeHTTP NewRecorder req] ∧
  (Code (writer s), env s) = (200, 1%nat).
Proof.
  split; [reflexivity|].
  pose proof (Middleware_allowed_forwards (mockLimiter true None) handler
                NewRecorder req 0%nat 0%nat eq_refl) as H.
  cbv zeta in H. destruct H as (Hc & _ & _ & _ & Hw).
  split; [exact Hc|].
  exact (f_equal (λ p : ResponseWriter * nat, (Code p.1, p.2)) Hw).
Defined.

(** Denied, basic handler: 429 and the protected handler did not run. *)
Lemma Middleware_denied_429_witness :
  IsAllowed (mockLimiter false None) req 0%nat = ((false, None), 0%nat) ∧
  let s := serve (Middleware (mockLimiter false None) handler)
             NewRecorder req 0%nat in
  Code (writer s) = 429 ∧ Body (writer s) = EmptyString ∧ env s = 0%nat.
Proof.
  split; [reflexivity|].
  pose proof (Middleware_denied_429 (mockLimiter false None) handler
                NewRecorder req 0%nat 0%nat eq_refl) as H.
  cbv zeta in H. destruct H as (_ & _ & _ & _ & He & Hb & _ & Hc).
  split; [exact (proj1 (Hc eq_refl))|]. split; [exact Hb|exact He].
Defined.

(** Failure, both handlers, with the boolean the tests return. *)
Lemma failure_responds_500_witness :
  IsAllowed (mockLimiter false err) req 0%nat = ((false, err), 0%nat) ∧
  failure_response NewRecorder req 0%nat
    (serve (Middleware (mockLimiter false err) handler)
       NewRecorder req 0%nat) ∧
  failure_response NewRecorder req 0%nat
    (serve (AdvancedMiddleware
              (mockAdvancedLimiter false err (mkRateLimitData 0 0 0)) handler)
       NewRecorder req 0%nat).
Proof.
  split; [reflexivity|]. split.
  - apply (proj1 (failure_responds_500 handler NewRecorder req 0%nat 0%nat
                    false "rate limiter error"%string)).
    reflexivity.
  - apply (proj2 (failure_responds_500 handler NewRecorder req 0%nat 0%nat
                    false "rate limiter error"%string)
             (mockAdvancedLimiter false err (mkRateLimitData 0 0 0))).
    reflexivity.
Defined.

(** Failure with [allowed = true]: still 500, nothing forwarded. *)
Example failure_with_allowed_true :
  let s := serve (AdvancedMiddleware
                    (mockAdvancedLimiter true err (mkRateLimitData 99 100 0))
                    handler) NewRecorder req 0%nat in
  Code (writer s) = 500 ∧ env s = 0%nat ∧
  calls s = [CallIsAllowed req; CallWriteHeader 500].
Proof. by vm_compute. Qed.

(** The basic handler, denying: no header on the way out. *)
Lemma Middleware_adds_no_headers_witness :
  let s := serve (Middleware (mockLimiter false None) handler)
             NewRecorder req 0%nat in
  wroteHeader NewRecorder = false ∧
  HeaderMap (writer s) = ∅ ∧ snapHeader (writer s) = ∅.
Proof.
  pose proof (Middleware_adds_no_headers (mockLimiter false None) handler
                NewRecorder req 0%nat) as H.
  cbv zeta in H. destruct H as (_ & Hm & Hs).
  split; [reflexivity|]. split; [exact Hm|exact (Hs eq_refl)].
Defined.

(** Denied, advanced handler: 429 with X-RateLimit-Retry-After. *)
Lemma AdvancedMiddleware_denied_retry_after_witness :
  IsAllowed (mockAdvancedLimiter false None snapshot_denied) req 0%nat
    = ((false, None), 0%nat) ∧
  GetRateLimitData (mockAdvancedLimiter false None snapshot_denied) req 0%nat
    = (snapshot_denied, 0%nat) ∧
  let s := serve (AdvancedMiddleware
                    (mockAdvancedLimiter false None snapshot_denied) handler)
             NewRecorder req 0%nat in
  Code (writer s) = 429 ∧ env s = 0%nat ∧
  Header_Get "X-RateLimit-Retry-After" (HeaderMap (writer s)) = "1000"%string.
Proof.
  split; [reflexivity|]. split; [reflexivity|].
  pose proof (AdvancedMiddleware_denied_retry_after
                (mockAdvancedLimiter false None snapshot_denied) handler
                NewRecorder req 0%nat 0%nat snapshot_denied 0%nat
                eq_refl eq_refl) as H.
  cbv zeta in H.
  destruct H as (_ & _ & _ & He & _ & _ & Hv & _ & _ & _ & Hc).
  split; [exact (proj1 (Hc eq_refl))|]. split; [exact He|exact Hv].
Defined.

(** One second of [RetryAfter] is written as 1000. *)
Lemma retry_after_header_whole_milliseconds_witness :
  IsAllowed (mockAdvancedLimiter false None snapshot_denied) req 0%nat
    = ((false, None), 0%nat) ∧
  GetRateLimitData (mockAdvancedLimiter false None snapshot_denied) req 0%nat
    = (snapshot_denied, 0%nat) ∧
  in_int64 (RetryAfter snapshot_denied) ∧
  Header_Get "X-RateLimit-Retry-After"
    (HeaderMap (writer (serve (AdvancedMiddleware
                                 (mockAdvancedLimiter false None snapshot_denied)
                                 handler) NewRecorder req 0%nat)))
    = decimal_string 1000.
Proof.
  assert (in_int64 (RetryAfter snapshot_denied)) as Hd by (by vm_compute).
  split; [reflexivity|]. split; [reflexivity|]. split; [exact Hd|].
  pose proof (retry_after_header_whole_milliseconds
                (mockAdvancedLimiter false None snapshot_denied) handler
                NewRecorder req 0%nat 0%nat snapshot_denied 0%nat
                eq_refl eq_refl Hd) as H.
  cbv zeta in H. destruct H as (_ & Hv & _). exact Hv.
Defined.

(** Allowed, advanced handler: both quota headers, then the handler's 200. *)
Lemma AdvancedMiddleware_allowed_headers_witness :
  IsAllowed (mockAdvancedLimiter true None snapshot_allowed) req 0%nat
    = ((true, None), 0%nat) ∧
  GetRateLimitData (mockAdvancedLimiter true None snapshot_allowed) req 0%nat
    = (snapshot_allowed, 0%nat) ∧
  in_int64 (Limit snapshot_allowed) ∧ in_int64 (Remaining snapshot_allowed) ∧
  let s := serve (AdvancedMiddleware
                    (mockAdvancedLimiter true None snapshot_allowed) handler)
             NewRecorder req 0%nat in
  count_calls is_ServeHTTP (calls s) = 1%nat ∧
  (Code (writer s), env s) = (200, 1%nat) ∧
  Header_Get "X-RateLimit-Limit" (HeaderMap (writer s)) = "100"%string ∧
  Header_Get "X-RateLimit-Remaining" (HeaderMap (writer s)) = "99"%string.
Proof.
  assert (in_int64 (Limit snapshot_allowed)) as HL by (by vm_compute).
  assert (in_int64 (Remaining snapshot_allowed)) as HR by (by vm_compute).
  split; [reflexivity|]. split; [reflexivity|].
  split; [exact HL|]. split; [exact HR|].
  pose proof (AdvancedMiddleware_allowed_headers
                (mockAdvancedLimiter true None snapshot_allowed) handler
                NewRecorder req 0%nat 0%nat snapshot_allowed 0%nat
                eq_refl eq_refl HL HR) as H.
  cbv zeta in H. destruct H as (_ & Hn & _ & Hl & Hr & _ & _ & Hw).
  split; [exact Hn|].
  split; [exact (f_equal (λ p : ResponseWriter * nat, (Code p.1, p.2)) Hw)|].
  split.
  - transitivity
      (Header_Get "X-RateLimit-Limit"
         (HeaderMap (rw_WriteHeader StatusOK
            (rw_HeaderSet "X-RateLimit-Remaining" (decimal_string 99)
               (rw_HeaderSet "X-RateLimit-Limit" (decimal_string 100)
                  NewRecorder))))).
    + exact (f_equal (λ p : ResponseWriter * nat,
                        Header_Get "X-RateLimit-Limit" (HeaderMap p.1)) Hw).
    + exact Hl.
  - transitivity
      (Header_Get "X-RateLimit-Remaining"
         (HeaderMap (rw_WriteHeader StatusOK
            (rw_HeaderSet "X-RateLimit-Remaining" (decimal_string 99)
               (rw_HeaderSet "X-RateLimit-Limit" (decimal_string 100)
                  NewRecorder))))).
    + exact (f_equal (λ p : ResponseWriter * nat,
                        Header_Get "X-RateLimit-Remaining" (HeaderMap p.1)) Hw).
    + exact Hr.
Defined.

(** In the deny run the header is set at position 2, the status at 3. *)
Lemma AdvancedMiddleware_headers_before_commit_witness :
  let s := serve (AdvancedMiddleware
                    (mockAdvancedLimiter false None snapshot_denied) handler)
             NewRecorder req 0%nat in
  calls s !! 2%nat = Some (CallHeaderSet "X-RateLimit-Retry-After" "1000") ∧
  calls s !! 3%nat = Some (CallWriteHeader 429) ∧
  (2 < 3)%nat.
Proof.
  split; [reflexivity|]. split; [reflexivity|].
  apply (proj1 (AdvancedMiddleware_headers_before_commit
                  (mockAdvancedLimiter false None snapshot_denied) handler
                  NewRecorder req 0%nat)
           2%nat 3%nat
           (CallHeaderSet "X-RateLimit-Retry-After" "1000")
           (CallWriteHeader 429));
    reflexivity.
Defined.

(** A snapshot with negative fields and remaining above limit. *)
Lemma AdvancedMiddleware_renders_snapshot_as_is_witness :
  IsAllowed (mockAdvancedLimiter true None snapshot_odd) req 0%nat
    = ((true, None), 0%nat) ∧
  GetRateLimitData (mockAdvancedLimiter true None snapshot_odd) req 0%nat
    = (snapshot_odd, 0%nat) ∧
  in_int64 (Remaining snapshot_odd) ∧ in_int64 (Limit snapshot_odd) ∧
  in_int64 (RetryAfter snapshot_odd) ∧
  List.filter is_HeaderSet
    (calls (serve (AdvancedMiddleware
                     (mockAdvancedLimiter true None snapshot_odd) handler)
              NewRecorder req 0%nat)) =
    [CallHeaderSet "X-RateLimit-Limit" (decimal_string (-2));
     CallHeaderSet "X-RateLimit-Remaining" (decimal_string (-1))].
Proof.
  assert (in_int64 (Remaining snapshot_odd)) as HR by (by vm_compute).
  assert (in_int64 (Limit snapshot_odd)) as HL by (by vm_compute).
  assert (in_int64 (RetryAfter snapshot_odd)) as HD by (by vm_compute).
  split; [reflexivity|]. split; [reflexivity|].
  split; [exact HR|]. split; [exact HL|]. split; [exact HD|].
  pose proof (AdvancedMiddleware_renders_snapshot_as_is
                (mockAdvancedLimiter true None snapshot_odd) handler
                NewRecorder req 0%nat true 0%nat snapshot_odd 0%nat
                eq_refl eq_refl HR HL HD) as H.
  cbv zeta in H. exact (proj1 H).
Defined.

Example snapshot_odd_headers :
  let s := serve (AdvancedMiddleware
                    (mockAdvancedLimiter true None snapshot_odd) handler)
             NewRecorder req 0%nat in
  Header_Get "X-RateLimit-Limit" (HeaderMap (writer s)) = "-2"%string ∧
  Header_Get "X-RateLimit-Remaining" (HeaderMap (writer s)) = "-1"%string.
Proof. by vm_compute. Qed.

(** The protected handler's header, status and body are the response. *)
Example Middleware_forwards_greeter :
  let s := serve (Middleware (mockLimiter true None) greeter)
             NewRecorder req 0%nat in
  Code (writer s) = 200 ∧ Body (writer s) = "hello"%string ∧
  map_to_list (snapHeader (writer s)) =
    [("Content-Type"%string, ["text/plain"%string])].
Proof. by vm_compute. Qed.

(** The handlers nest: an allowing advanced middleware around a denying
    basic one answers 429 and keeps the quota headers. *)
Example AdvancedMiddleware_around_Middleware :
  let inner := as_Handler (Middleware (mockLimiter false None) handler) in
  let s := serve (AdvancedMiddleware
                    (mockAdvancedLimiter true None snapshot_allowed) inner)
             NewRecorder req 0%nat in
  Code (writer s) = 429 ∧ env s = 0%nat ∧
  Header_Get "X-RateLimit-Limit" (snapHeader (writer s)) = "100"%string ∧
  Header_Get "X-RateLimit-Remaining" (snapHeader (writer s)) = "99"%string.
Proof. by vm_compute. Qed.

Example retry_after_truncates :
  Sprintf_d (Milliseconds 1999999) = "1"%string ∧
  Sprintf_d (Milliseconds (-1999999)) = "-1"%string ∧
  Sprintf_d (Milliseconds 999999) = "0"%string ∧
  Sprintf_d (- 2 ^ 63) = "-9223372036854775808"%string.
Proof. by vm_compute. Qed.

End Scenarios.

(** ** Further properties of the two handlers *)

Section Further.

Context {Request Error Env : Type}.
Implicit Types (w : ResponseWriter) (r : Request) (e : Env).
Implicit Types (next : Handler Request Env).

(** X1: in every run of either handler the limiter's [IsAllowed] is
    called exactly once, and it is the first call the handler makes. *)
Theorem IsAllowed_called_once_first next w r e :
  (∀ rl : RateLimiter Request Error Env,
     let s := serve (Middleware rl next) w r e in
     head (calls s) = Some (CallIsAllowed r) ∧
     count_calls is_IsAllowed (calls s) = 1%nat) ∧
  (∀ rl : AdvancedRateLimiter Request Error Env,
     let s := serve (AdvancedMiddleware rl next) w r e in
     head (calls s) = Some (CallIsAllowed r) ∧
     count_calls is_IsAllowed (calls s) = 1%nat).
Proof.
  split; intros rl s; subst s.
  - rewrite serve_Middleware.
    destruct (IsAllowed rl r e) as [[[] [err|]] e1]; by cbn.
  - rewrite serve_AdvancedMiddleware.
    destruct (IsAllowed rl r e) as [[isAllowed [err|]] e1];
      [by destruct isAllowed|].
    destruct (GetRateLimitData rl r e1) as [data e2].
    by destruct isAllowed.
Qed.

(** X2: every run of [Middleware] makes exactly two calls: [IsAllowed],
    then one of [WriteHeader(500)], [WriteHeader(429)] and
    [next.ServeHTTP(w, r)]; it never returns without answering. *)
Theorem Middleware_answers_once
  (rl : RateLimiter Request Error Env) next w r e :
  ∃ ev, calls (serve (Middleware rl next) w r e) = [CallIsAllowed r; ev] ∧
        (ev = CallWriteHeader 500 ∨ ev = CallWriteHeader 429 ∨
         ev = CallServeHTTP w r).
Proof.
  rewrite serve_Middleware.
  destruct (IsAllowed rl r e) as [[[] [err|]] e1]; cbn; eauto 6.
Qed.

(** X3: two [Middleware]s stacked consult the outer limiter first and the
    inner one only when the outer allows; the protected handler runs when
    both allow, and a refusal of either is answered as that one alone
    would. *)
Theorem Middleware_nested
  (rl1 rl2 : RateLimiter Request Error Env) next w r e :
  as_Handler (Middleware rl1 (as_Handler (Middleware rl2 next))) w r e =
  let '(res1, e1) := IsAllowed rl1 r e in
  match branch_of res1 with
  | Failing => (rw_WriteHeader 500 w, e1)
  | Denying => (rw_WriteHeader 429 w, e1)
  | Forwarding =>
      let '(res2, e2) := IsAllowed rl2 r e1 in
      match branch_of res2 with
      | Failing => (rw_WriteHeader 500 w, e2)
      | Denying => (rw_WriteHeader 429 w, e2)
      | Forwarding => next w r e2
      end
  end.
Proof.
  unfold as_Handler at 1. rewrite serve_Middleware.
  destruct (IsAllowed rl1 r e) as [[[] [err1|]] e1]; cbn [branch_of]; try done.
  cbn [writer env]. rewrite <- surjective_pairing.
  unfold as_Handler. rewrite serve_Middleware.
  destruct (IsAllowed rl2 r e1) as [[[] [err2|]] e2]; cbn; try done.
  by rewrite <- surjective_pairing.
Qed.

(** X4: [AdvancedMiddleware] decides as [Middleware] does on the same
    limiter: it forwards in the same runs and makes the same
    [WriteHeader] call; when it does not forward, status, body and the
    header-sent flag of the two responses are the same. *)
Theorem AdvancedMiddleware_same_decision
  (rl : AdvancedRateLimiter Request Error Env) next w r e :
  let s1 := serve (Middleware rl next) w r e in
  let s2 := serve (AdvancedMiddleware rl next) w r e in
  count_calls is_ServeHTTP (calls s1) = count_calls is_ServeHTTP (calls s2) ∧
  List.filter is_WriteHeader (calls s1) = List.filter is_WriteHeader (calls s2) ∧
  match branch_of (IsAllowed rl r e).1 with
  | Forwarding => count_calls is_ServeHTTP (calls s2) = 1%nat
  | Denying | Failing =>
      (Code (writer s1), Body (writer s1), wroteHeader (writer s1)) =
      (Code (writer s2), Body (writer s2), wroteHeader (writer s2))
  end.
Proof.
  intros s1 s2. subst s1 s2.
  rewrite serve_Middleware, serve_AdvancedMiddleware.
  destruct (IsAllowed rl r e) as [[isAllowed [err|]] e1].
  - by destruct isAllowed.
  - destruct (GetRateLimitData rl r e1) as [data e2].
    destruct isAllowed; cbn; [done|].
    unfold rw_WriteHeader. cbn. by destruct (wroteHeader w).
Qed.

(** X5: on a writer whose header was already sent, a refusal changes
    nothing that reaches the client: [Middleware] leaves the writer as it
    was, and [AdvancedMiddleware] leaves status, body and the sent headers
    as they were (the 429 or 500 and the retry-after header are lost). *)
Theorem refusal_after_header_sent
  (rl : AdvancedRateLimiter Request Error Env) next w r e :
  wroteHeader w = true →
  branch_of (IsAllowed rl r e).1 ≠ Forwarding →
  let s1 := serve (Middleware rl next) w r e in
  let s2 := serve (AdvancedMiddleware rl next) w r e in
  writer s1 = w ∧
  (Code (writer s2), Body (writer s2), snapHeader (writer s2)) =
    (Code w, Body w, snapHeader w).
Proof.
  intros Hw Hb s1 s2. subst s1 s2.
  rewrite serve_Middleware, serve_AdvancedMiddleware.
  destruct (IsAllowed rl r e) as [[isAllowed [err|]] e1]; cbn in Hb |- *.
  - unfold rw_WriteHeader. by rewrite Hw.
  - destruct (GetRateLimitData rl r e1) as [data e2].
    destruct isAllowed; [done|]. cbn.
    unfold rw_WriteHeader. cbn. by rewrite Hw.
Qed.

(** *** The writer the next handler receives *)

Lemma AdvancedMiddleware_allowed_last
  (rl : AdvancedRateLimiter Request Error Env) next w r e e1 data e2 :
  IsAllowed rl r e = ((true, None), e1) →
  GetRateLimitData rl r e1 = (data, e2) →
  last (calls (serve (AdvancedMiddleware rl next) w r e)) =
    Some (CallServeHTTP
            (rw_HeaderSet "X-RateLimit-Remaining" (Sprintf_d (Remaining data))
               (rw_HeaderSet "X-RateLimit-Limit" (Sprintf_d (Limit data)) w))
            r).
Proof. intros H1 H2. by rewrite serve_AdvancedMiddleware, H1, H2. Qed.

Lemma canonical_lower_Limit :
  CanonicalMIMEHeaderKey "x-ratelimit-limit" = "X-Ratelimit-Limit".
Proof. vm_compute. reflexivity. Qed.

Lemma canonical_upper_Remaining :
  CanonicalMIMEHeaderKey "X-RATELIMIT-REMAINING" = "X-Ratelimit-Remaining".
Proof. vm_compute. reflexivity. Qed.

Lemma Limit_ne_Remaining :
  ("X-Ratelimit-Limit" : string) ≠ "X-Ratelimit-Remaining".
Proof. apply String.eqb_neq. vm_compute. reflexivity. Qed.

Lemma Limit_ne_Retry_After :
  ("X-Ratelimit-Limit" : string) ≠ "X-Ratelimit-Retry-After".
Proof. apply String.eqb_neq. vm_compute. reflexivity. Qed.

Lemma Remaining_ne_Retry_After :
  ("X-Ratelimit-Remaining" : string) ≠ "X-Ratelimit-Retry-After".
Proof. apply String.eqb_neq. vm_compute. reflexivity. Qed.

(** X6: on the allow path the writer handed to the next handler holds
    exactly one value under each of the canonical keys X-Ratelimit-Limit
    and X-Ratelimit-Remaining, whatever was stored there before, and every
    other key of the header map is as it was on entry. *)
Theorem quota_headers_replace_previous
  (rl : AdvancedRateLimiter Request Error Env) next w r e e1 data e2 :
  IsAllowed rl r e = ((true, None), e1) →
  GetRateLimitData rl r e1 = (data, e2) →
  ∃ w2, last (calls (serve (AdvancedMiddleware rl next) w r e)) =
          Some (CallServeHTTP w2 r) ∧
        HeaderMap w2 !! ("X-Ratelimit-Limit" : string) =
          Some [Sprintf_d (Limit data)] ∧
        HeaderMap w2 !! ("X-Ratelimit-Remaining" : string) =
          Some [Sprintf_d (Remaining data)] ∧
        ∀ k : string,
          k ≠ "X-Ratelimit-Limit" → k ≠ "X-Ratelimit-Remaining" →
          HeaderMap w2 !! k = HeaderMap w !! k.
Proof.
  intros H1 H2. eexists. split; [by eapply AdvancedMiddleware_allowed_last|].
  cbn [rw_HeaderSet HeaderMap]. unfold Header_Set.
  rewrite canonical_Limit, canonical_Remaining.
  pose proof Limit_ne_Remaining as Hne. split; [|split].
  - rewrite lookup_insert_ne by done. apply lookup_insert_eq.
  - apply lookup_insert_eq.
  - intros k HL HR. by rewrite !lookup_insert_ne.
Qed.

(** X7: a client gets the snapshot's integers back from the two headers
    of an allowed request: each value, read as a signed decimal numeral,
    is [data.Limit] or [data.Remaining], and the header name may be
    spelled in any letter case. *)
Theorem quota_headers_read_back
  (rl : AdvancedRateLimiter Request Error Env) next w r e e1 data e2 :
  IsAllowed rl r e = ((true, None), e1) →
  GetRateLimitData rl r e1 = (data, e2) →
  in_int64 (Limit data) → in_int64 (Remaining data) →
  ∃ w2, last (calls (serve (AdvancedMiddleware rl next) w r e)) =
          Some (CallServeHTTP w2 r) ∧
        Z.of_int <$> NilZero.int_of_string
          (Header_Get "X-RateLimit-Limit" (HeaderMap w2)) =
          Some (Limit data) ∧
        Z.of_int <$> NilZero.int_of_string
          (Header_Get "X-RateLimit-Remaining" (HeaderMap w2)) =
          Some (Remaining data) ∧
        Header_Get "x-ratelimit-limit" (HeaderMap w2) =
          Header_Get "X-RateLimit-Limit" (HeaderMap w2) ∧
        Header_Get "X-RATELIMIT-REMAINING" (HeaderMap w2) =
          Header_Get "X-RateLimit-Remaining" (HeaderMap w2).
Proof.
  intros H1 H2 HL HR. eexists.
  split; [by eapply AdvancedMiddleware_allowed_last|].
  cbn [rw_HeaderSet HeaderMap]. unfold Header_Get, Header_Set.
  rewrite canonical_Limit, canonical_Remaining, canonical_lower_Limit,
    canonical_upper_Remaining.
  pose proof Limit_ne_Remaining as Hne.
  rewrite lookup_insert_eq, lookup_insert_ne, lookup_insert_eq by done.
  rewrite !Sprintf_d_decimal by done.
  repeat split; try apply decimal_string_read.
Qed.

Lemma AdvancedMiddleware_denied_value
  (rl : AdvancedRateLimiter Request Error Env) next w r e e1 data e2 :
  IsAllowed rl r e = ((false, None), e1) →
  GetRateLimitData rl r e1 = (data, e2) →
  Header_Get "X-RateLimit-Retry-After"
    (HeaderMap (writer (serve (AdvancedMiddleware rl next) w r e))) =
  Sprintf_d (Milliseconds (RetryAfter data)).
Proof.
  intros H1 H2. rewrite serve_AdvancedMiddleware, H1, H2. cbn [writer].
  rewrite HeaderMap_rw_WriteHeader. apply Header_Get_Set.
Qed.

(** X8: a [RetryAfter] shorter than one millisecond, positive or
    negative, is written as 0: the header of a denied request then tells
    the client to wait no time at all. *)
Theorem retry_after_below_millisecond_is_zero
  (rl : AdvancedRateLimiter Request Error Env) next w r e e1 data e2 :
  IsAllowed rl r e = ((false, None), e1) →
  GetRateLimitData rl r e1 = (data, e2) →
  - Millisecond < RetryAfter data < Millisecond →
  Header_Get "X-RateLimit-Retry-After"
    (HeaderMap (writer (serve (AdvancedMiddleware rl next) w r e))) =
  "0"%string.
Proof.
  intros H1 H2 Hd. erewrite AdvancedMiddleware_denied_value by done.
  replace (Milliseconds (RetryAfter data)) with 0; [done|].
  unfold Milliseconds. change Millisecond with 1000000 in Hd.
  symmetry. apply Z.quot_small_iff; [done|]. lia.
Qed.

(** X9: a [RetryAfter] of a whole number [k] of milliseconds is written
    as the decimal rendering of [k], and one of [k] seconds as that of
    [1000 * k]. *)
Theorem retry_after_whole_units
  (rl : AdvancedRateLimiter Request Error Env) next w r e e1 data e2 (k : Z) :
  IsAllowed rl r e = ((false, None), e1) →
  GetRateLimitData rl r e1 = (data, e2) →
  in_int64 (RetryAfter data) →
  let v := Header_Get "X-RateLimit-Retry-After"
             (HeaderMap (writer (serve (AdvancedMiddleware rl next) w r e))) in
  (RetryAfter data = k * Millisecond → v = decimal_string k) ∧
  (RetryAfter data = k * Second → v = decimal_string (1000 * k)).
Proof.
  intros H1 H2 Hd v. subst v. erewrite AdvancedMiddleware_denied_value by done.
  rewrite Sprintf_d_decimal by by apply in_int64_Milliseconds.
  unfold Milliseconds. split; intros ->.
  - change Millisecond with 1000000. by rewrite Z.quot_mul.
  - change Second with (1000 * 1000000).
    by rewrite Z.mul_assoc, Z.quot_mul, Z.mul_comm.
Qed.

(** X10: a longer [RetryAfter] never yields a smaller header: of two
    denied requests, the one whose snapshot asks for the longer wait
    carries the header that reads as the larger or equal number. *)
Theorem retry_after_header_monotone
  (rl rl' : AdvancedRateLimiter Request Error Env) next next' w w' r r' e e'
  e1 e1' data data' e2 e2' :
  IsAllowed rl r e = ((false, None), e1) →
  GetRateLimitData rl r e1 = (data, e2) →
  IsAllowed rl' r' e' = ((false, None), e1') →
  GetRateLimitData rl' r' e1' = (data', e2') →
  in_int64 (RetryAfter data) → in_int64 (RetryAfter data') →
  RetryAfter data <= RetryAfter data' →
  ∃ ms ms' : Z,
    Z.of_int <$> NilZero.int_of_string
      (Header_Get "X-RateLimit-Retry-After"
         (HeaderMap (writer (serve (AdvancedMiddleware rl next) w r e)))) =
      Some ms ∧
    Z.of_int <$> NilZero.int_of_string
      (Header_Get "X-RateLimit-Retry-After"
         (HeaderMap (writer (serve (AdvancedMiddleware rl' next') w' r' e')))) =
      Some ms' ∧
    ms <= ms'.
Proof.
  intros H1 H2 H1' H2' Hd Hd' Hle.
  exists (Milliseconds (RetryAfter data)), (Milliseconds (RetryAfter data')).
  erewrite !AdvancedMiddleware_denied_value by done.
  rewrite !Sprintf_d_decimal by by apply in_int64_Milliseconds.
  rewrite !decimal_string_read. repeat split.
  unfold Milliseconds. by apply Z.quot_le_mono.
Qed.

(** *** The size of a header value *)

Lemma fmt_digits_length fuel : ∀ (k : nat) u buf s,
  0 <= u < 10 ^ Z.of_nat (S k) →
  fmt_digits fuel u buf = Some s →
  (String.length s ≤ S k + String.length buf)%nat.
Proof.
  induction fuel as [|fuel IH]; intros k u buf s Hu; [done|]. cbn.
  destruct (Z.leb_spec 10 u) as [Hge|Hlt].
  - destruct k as [|k]; [change (10 ^ Z.of_nat 1) with 10 in Hu; lia|].
    intros Hs. apply (IH k) in Hs.
    + cbn in Hs. lia.
    + rewrite Nat2Z.inj_succ, Z.pow_succ_r in Hu by lia.
      split; [apply Z.div_pos; lia|]. apply Z.div_lt_upper_bound; lia.
  - intros [= <-]. cbn. lia.
Qed.

Lemma Sprintf_d_length n :
  in_int64 n → (String.length (Sprintf_d n) ≤ 20)%nat.
Proof.
  unfold in_int64. change (2 ^ 63) with 9223372036854775808. intros Hn.
  assert (∀ u, 0 <= u <= 9223372036854775808 →
            (String.length (default EmptyString
                              (fmt_digits 20 u EmptyString)) ≤ 19)%nat) as Hu.
  { intros u Hu. destruct (fmt_digits 20 u EmptyString) as [s|] eqn:E.
    - apply (fmt_digits_length _ 18) in E; [cbn in *; lia|].
      split; [lia|]. eapply Z.le_lt_trans; [apply Hu|]. by vm_compute.
    - cbn. lia. }
  unfold Sprintf_d, to_uint64. change (2 ^ 64) with 18446744073709551616.
  destruct (Z.ltb_spec n 0).
  - replace (- (n mod 18446744073709551616) mod 18446744073709551616)
      with (- n).
    + cbn [String.length]. specialize (Hu (- n)). lia.
    + replace (n mod 18446744073709551616) with (n + 18446744073709551616)
        by (apply Z.mod_unique with (q := -1); lia).
      apply Z.mod_unique with (q := -1); lia.
  - rewrite Z.mod_small by lia. specialize (Hu n). lia.
Qed.

(** X11: every header value [AdvancedMiddleware] sets is at most 20
    characters long (19 digits and a sign), whatever the snapshot
    holds. *)
Theorem header_values_at_most_20_chars
  (rl : AdvancedRateLimiter Request Error Env) next w r e
  (allowed : bool) e1 data e2 :
  IsAllowed rl r e = ((allowed, None), e1) →
  GetRateLimitData rl r e1 = (data, e2) →
  in_int64 (Remaining data) → in_int64 (Limit data) →
  in_int64 (RetryAfter data) →
  ∀ key value : string,
    In (CallHeaderSet key value)
       (calls (serve (AdvancedMiddleware rl next) w r e)) →
    (String.length value ≤ 20)%nat.
Proof.
  intros H1 H2 HR HL HD key value.
  rewrite serve_AdvancedMiddleware, H1, H2.
  pose proof (Sprintf_d_length _ HR). pose proof (Sprintf_d_length _ HL).
  pose proof (Sprintf_d_length _ (in_int64_Milliseconds _ HD)).
  destruct allowed; cbn; intros Hin;
    repeat (destruct Hin as [Hin|Hin]; [by simplify_eq|]); done.
Qed.

(** *** Stacking two advanced middlewares *)

Lemma rw_HeaderSet_again key v1 v2 w :
  rw_HeaderSet key v2 (rw_HeaderSet key v1 w) = rw_HeaderSet key v2 w.
Proof.
  unfold rw_HeaderSet, Header_Set. cbn. by rewrite insert_insert_eq.
Qed.

Lemma rw_HeaderSet_swap key1 key2 v1 v2 w :
  CanonicalMIMEHeaderKey key1 ≠ CanonicalMIMEHeaderKey key2 →
  rw_HeaderSet key1 v1 (rw_HeaderSet key2 v2 w) =
  rw_HeaderSet key2 v2 (rw_HeaderSet key1 v1 w).
Proof.
  intros Hne. unfold rw_HeaderSet, Header_Set. cbn.
  by rewrite insert_insert_ne.
Qed.

(** X12: of two advanced middlewares stacked, both allowing, the inner
    one's snapshot wins: the protected handler receives the writer with
    the inner limiter's X-RateLimit-Limit and X-RateLimit-Remaining, as if
    the outer one had set nothing. *)
Theorem AdvancedMiddleware_nested_allow
  (rlA rlB : AdvancedRateLimiter Request Error Env) next w r e
  eA1 dA eA2 eB1 dB eB2 :
  IsAllowed rlA r e = ((true, None), eA1) →
  GetRateLimitData rlA r eA1 = (dA, eA2) →
  IsAllowed rlB r eA2 = ((true, None), eB1) →
  GetRateLimitData rlB r eB1 = (dB, eB2) →
  as_Handler (AdvancedMiddleware rlA (as_Handler (AdvancedMiddleware rlB next)))
    w r e =
  next (rw_HeaderSet "X-RateLimit-Remaining" (Sprintf_d (Remaining dB))
          (rw_HeaderSet "X-RateLimit-Limit" (Sprintf_d (Limit dB)) w))
    r eB2.
Proof.
  intros HA1 HA2 HB1 HB2.
  unfold as_Handler at 1. rewrite serve_AdvancedMiddleware, HA1, HA2.
  cbn [writer env]. rewrite <- surjective_pairing.
  unfold as_Handler. rewrite serve_AdvancedMiddleware, HB1, HB2.
  cbn [writer env]. rewrite <- surjective_pairing.
  f_equal.
  rewrite (rw_HeaderSet_swap "X-RateLimit-Limit" "X-RateLimit-Remaining")
    by (rewrite canonical_Limit, canonical_Remaining; apply Limit_ne_Remaining).
  by rewrite rw_HeaderSet_again, rw_HeaderSet_again.
Qed.

(** X13: when the outer advanced middleware allows and the inner one
    denies, the protected handler does not run and the 429 carries the
    outer limiter's X-RateLimit-Limit and X-RateLimit-Remaining next to
    the inner limiter's X-RateLimit-Retry-After. *)
Theorem AdvancedMiddleware_nested_deny
  (rlA rlB : AdvancedRateLimiter Request Error Env) next w r e
  eA1 dA eA2 eB1 dB eB2 :
  IsAllowed rlA r e = ((true, None), eA1) →
  GetRateLimitData rlA r eA1 = (dA, eA2) →
  IsAllowed rlB r eA2 = ((false, None), eB1) →
  GetRateLimitData rlB r eB1 = (dB, eB2) →
  wroteHeader w = false →
  let res :=
    as_Handler
      (AdvancedMiddleware rlA (as_Handler (AdvancedMiddleware rlB next)))
      w r e in
  res.2 = eB2 ∧ Code res.1 = 429 ∧ Body res.1 = Body w ∧
  Header_Get "X-RateLimit-Limit" (snapHeader res.1) = Sprintf_d (Limit dA) ∧
  Header_Get "X-RateLimit-Remaining" (snapHeader res.1) =
    Sprintf_d (Remaining dA) ∧
  Header_Get "X-RateLimit-Retry-After" (snapHeader res.1) =
    Sprintf_d (Milliseconds (RetryAfter dB)).
Proof.
  intros HA1 HA2 HB1 HB2 Hw res.
  assert (res =
          (rw_WriteHeader StatusTooManyRequests
             (rw_HeaderSet "X-RateLimit-Retry-After"
                (Sprintf_d (Milliseconds (RetryAfter dB)))
                (rw_HeaderSet "X-RateLimit-Remaining"
                   (Sprintf_d (Remaining dA))
                   (rw_HeaderSet "X-RateLimit-Limit"
                      (Sprintf_d (Limit dA)) w))), eB2)) as ->.
  { subst res.
    unfold as_Handler at 1. rewrite serve_AdvancedMiddleware, HA1, HA2.
    cbn [writer env]. rewrite <- surjective_pairing.
    unfold as_Handler. by rewrite serve_AdvancedMiddleware, HB1, HB2. }
  cbn [fst snd]. unfold rw_WriteHeader. cbn. rewrite Hw. cbn.
  pose proof Limit_ne_Remaining. pose proof Limit_ne_Retry_After.
  pose proof Remaining_ne_Retry_After.
  repeat split.
  - rewrite !Header_Get_Set_ne
      by (rewrite ?canonical_Limit, ?canonical_Remaining,
            ?canonical_Retry_After; done).
    apply Header_Get_Set.
  - rewrite Header_Get_Set_ne
      by (rewrite ?canonical_Limit, ?canonical_Remaining,
            ?canonical_Retry_After; done).
    apply Header_Get_Set.
  - apply Header_Get_Set.
Qed.

End Further.

(** ** The further properties at the test suite's limiters *)

Section FurtherScenarios.

Import Tests.

(** A denial on a recorder that already sent 200 leaves it at 200. *)
Lemma refusal_after_header_sent_witness :
  wroteHeader sentRecorder = true ∧
  branch_of (IsAllowed (mockAdvancedLimiter false None snapshot_denied)
               req 0%nat).1 ≠ Forwarding ∧
  writer (serve (Middleware (mockAdvancedLimiter false None snapshot_denied)
                   handler) sentRecorder req 0%nat) = sentRecorder ∧
  Code (writer (serve (AdvancedMiddleware
                         (mockAdvancedLimiter false None snapshot_denied)
                         handler) sentRecorder req 0%nat)) = 200.
Proof.
  assert (branch_of (IsAllowed (mockAdvancedLimiter false None snapshot_denied)
                       req 0%nat).1 ≠ Forwarding) as Hb by discriminate.
  split; [reflexivity|]. split; [exact Hb|].
  pose proof (refusal_after_header_sent
                (mockAdvancedLimiter false None snapshot_denied) handler
                sentRecorder req 0%nat eq_refl Hb) as H.
  cbv zeta in H. destruct H as (H1 & H2).
  split; [exact H1|]. exact (f_equal (λ p, p.1.1) H2).
Defined.

(** Stale quota headers are replaced, other headers stay. *)
Lemma quota_headers_replace_previous_witness :
  IsAllowed (mockAdvancedLimiter true None snapshot_allowed) req 0%nat
    = ((true, None), 0%nat) ∧
  GetRateLimitData (mockAdvancedLimiter true None snapshot_allowed) req 0%nat
    = (snapshot_allowed, 0%nat) ∧
  HeaderMap staleRecorder !! ("X-Ratelimit-Limit" : string) =
    Some ["1"%string; "2"%string] ∧
  ∃ w2, last (calls (serve (AdvancedMiddleware
                              (mockAdvancedLimiter true None snapshot_allowed)
                              handler) staleRecorder req 0%nat)) =
          Some (CallServeHTTP w2 req) ∧
        HeaderMap w2 !! ("X-Ratelimit-Limit" : string) =
          Some [Sprintf_d 100] ∧
        HeaderMap w2 !! ("X-Ratelimit-Retry-After" : string) =
          Some ["5"%string].
Proof.
  split; [reflexivity|]. split; [reflexivity|]. split; [by vm_compute|].
  destruct (quota_headers_replace_previous
              (mockAdvancedLimiter true None snapshot_allowed) handler
              staleRecorder req 0%nat 0%nat snapshot_allowed 0%nat
              eq_refl eq_refl) as (w2 & Hl & HL & _ & Hk).
  exists w2. split; [exact Hl|]. split; [exact HL|].
  rewrite Hk.
  - by vm_compute.
  - apply not_eq_sym, Limit_ne_Retry_After.
  - apply not_eq_sym, Remaining_ne_Retry_After.
Defined.

(** 100 and 99 come back from the headers. *)
Lemma quota_headers_read_back_witness :
  IsAllowed (mockAdvancedLimiter true None snapshot_allowed) req 0%nat
    = ((true, None), 0%nat) ∧
  GetRateLimitData (mockAdvancedLimiter true None snapshot_allowed) req 0%nat
    = (snapshot_allowed, 0%nat) ∧
  in_int64 (Limit snapshot_allowed) ∧ in_int64 (Remaining snapshot_allowed) ∧
  ∃ w2, last (calls (serve (AdvancedMiddleware
                              (mockAdvancedLimiter true None snapshot_allowed)
                              handler) NewRecorder req 0%nat)) =
          Some (CallServeHTTP w2 req) ∧
        Z.of_int <$> NilZero.int_of_string
          (Header_Get "X-RateLimit-Limit" (HeaderMap w2)) = Some 100 ∧
        Z.of_int <$> NilZero.int_of_string
          (Header_Get "X-RateLimit-Remaining" (HeaderMap w2)) = Some 99.
Proof.
  assert (in_int64 (Limit snapshot_allowed)) as HL by (by vm_compute).
  assert (in_int64 (Remaining snapshot_allowed)) as HR by (by vm_compute).
  split; [reflexivity|]. split; [reflexivity|].
  split; [exact HL|]. split; [exact HR|].
  destruct (quota_headers_read_back
              (mockAdvancedLimiter true None snapshot_allowed) handler
              NewRecorder req 0%nat 0%nat snapshot_allowed 0%nat
              eq_refl eq_refl HL HR) as (w2 & Hl & H1 & H2 & _).
  exists w2. split; [exact Hl|]. split; [exact H1|exact H2].
Defined.

(** 999999 nanoseconds are written as 0. *)
Lemma retry_after_below_millisecond_is_zero_witness :
  IsAllowed (mockAdvancedLimiter false None snapshot_brief) req 0%nat
    = ((false, None), 0%nat) ∧
  GetRateLimitData (mockAdvancedLimiter false None snapshot_brief) req 0%nat
    = (snapshot_brief, 0%nat) ∧
  - Millisecond < RetryAfter snapshot_brief < Millisecond ∧
  Header_Get "X-RateLimit-Retry-After"
    (HeaderMap (writer (serve (AdvancedMiddleware
                                 (mockAdvancedLimiter false None snapshot_brief)
                                 handler) NewRecorder req 0%nat))) =
  "0"%string.
Proof.
  assert (- Millisecond < RetryAfter snapshot_brief < Millisecond) as Hd
    by (by vm_compute).
  split; [reflexivity|]. split; [reflexivity|]. split; [exact Hd|].
  exact (retry_after_below_millisecond_is_zero
           (mockAdvancedLimiter false None snapshot_brief) handler
           NewRecorder req 0%nat 0%nat snapshot_brief 0%nat
           eq_refl eq_refl Hd).
Defined.

(** One second, as [1 * Second], is written as 1000. *)
Lemma retry_after_whole_units_witness :
  IsAllowed (mockAdvancedLimiter false None snapshot_denied) req 0%nat
    = ((false, None), 0%nat) ∧
  GetRateLimitData (mockAdvancedLimiter false None snapshot_denied) req 0%nat
    = (snapshot_denied, 0%nat) ∧
  in_int64 (RetryAfter snapshot_denied) ∧
  RetryAfter snapshot_denied = 1 * Second ∧
  Header_Get "X-RateLimit-Retry-After"
    (HeaderMap (writer (serve (AdvancedMiddleware
                                 (mockAdvancedLimiter false None snapshot_denied)
                                 handler) NewRecorder req 0%nat))) =
  decimal_string (1000 * 1).
Proof.
  assert (in_int64 (RetryAfter snapshot_denied)) as Hd by (by vm_compute).
  split; [reflexivity|]. split; [reflexivity|]. split; [exact Hd|].
  split; [reflexivity|].
  pose proof (retry_after_whole_units
                (mockAdvancedLimiter false None snapshot_denied) handler
                NewRecorder req 0%nat 0%nat snapshot_denied 0%nat 1
                eq_refl eq_refl Hd) as H.
  cbv zeta in H. exact (proj2 H eq_refl).
Defined.

(** 999999 nanoseconds against one second: 0 against 1000. *)
Lemma retry_after_header_monotone_witness :
  RetryAfter snapshot_brief <= RetryAfter snapshot_denied ∧
  in_int64 (RetryAfter snapshot_brief) ∧
  in_int64 (RetryAfter snapshot_denied) ∧
  ∃ ms ms' : Z,
    Z.of_int <$> NilZero.int_of_string
      (Header_Get "X-RateLimit-Retry-After"
         (HeaderMap (writer (serve (AdvancedMiddleware
                                      (mockAdvancedLimiter false None
                                         snapshot_brief)
                                      handler) NewRecorder req 0%nat)))) =
      Some ms ∧
    Z.of_int <$> NilZero.int_of_string
      (Header_Get "X-RateLimit-Retry-After"
         (HeaderMap (writer (serve (AdvancedMiddleware
                                      (mockAdvancedLimiter false None
                                         snapshot_denied)
                                      handler) NewRecorder req 0%nat)))) =
      Some ms' ∧
    ms <= ms'.
Proof.
  assert (RetryAfter snapshot_brief <= RetryAfter snapshot_denied) as Hle
    by (by vm_compute).
  assert (in_int64 (RetryAfter snapshot_brief)) as Hd by (by vm_compute).
  assert (in_int64 (RetryAfter snapshot_denied)) as Hd' by (by vm_compute).
  split; [exact Hle|]. split; [exact Hd|]. split; [exact Hd'|].
  exact (retry_after_header_monotone
           (mockAdvancedLimiter false None snapshot_brief)
           (mockAdvancedLimiter false None snapshot_denied)
           handler handler NewRecorder NewRecorder req req 0%nat 0%nat
           0%nat 0%nat snapshot_brief snapshot_denied 0%nat 0%nat
           eq_refl eq_refl eq_refl eq_refl Hd Hd' Hle).
Defined.

(** The four characters of 1000 are within the bound. *)
Lemma header_values_at_most_20_chars_witness :
  IsAllowed (mockAdvancedLimiter false None snapshot_denied) req 0%nat
    = ((false, None), 0%nat) ∧
  GetRateLimitData (mockAdvancedLimiter false None snapshot_denied) req 0%nat
    = (snapshot_denied, 0%nat) ∧
  in_int64 (Remaining snapshot_denied) ∧ in_int64 (Limit snapshot_denied) ∧
  in_int64 (RetryAfter snapshot_denied) ∧
  In (CallHeaderSet "X-RateLimit-Retry-After" "1000")
     (calls (serve (AdvancedMiddleware
                      (mockAdvancedLimiter false None snapshot_denied)
                      handler) NewRecorder req 0%nat)) ∧
  (String.length "1000" ≤ 20)%nat.
Proof.
  assert (in_int64 (Remaining snapshot_denied)) as HR by (by vm_compute).
  assert (in_int64 (Limit snapshot_denied)) as HL by (by vm_compute).
  assert (in_int64 (RetryAfter snapshot_denied)) as HD by (by vm_compute).
  assert (In (CallHeaderSet "X-RateLimit-Retry-After" "1000")
            (calls (serve (AdvancedMiddleware
                             (mockAdvancedLimiter false None snapshot_denied)
                             handler) NewRecorder req 0%nat))) as Hin
    by (right; right; left; reflexivity).
  split; [reflexivity|]. split; [reflexivity|].
  split; [exact HR|]. split; [exact HL|]. split; [exact HD|].
  split; [exact Hin|].
  exact (header_values_at_most_20_chars
           (mockAdvancedLimiter false None snapshot_denied) handler
           NewRecorder req 0%nat false 0%nat snapshot_denied 0%nat
           eq_refl eq_refl HR HL HD
           "X-RateLimit-Retry-After"%string "1000"%string Hin).
Defined.

(** Outer limiter 100/99, inner limiter 5/4: the handler sees 5 and 4. *)
Lemma AdvancedMiddleware_nested_allow_witness :
  IsAllowed (mockAdvancedLimiter true None snapshot_allowed) req 0%nat
    = ((true, None), 0%nat) ∧
  IsAllowed (mockAdvancedLimiter true None snapshot_inner) req 0%nat
    = ((true, None), 0%nat) ∧
  as_Handler
    (AdvancedMiddleware (mockAdvancedLimiter true None snapshot_allowed)
       (as_Handler
          (AdvancedMiddleware (mockAdvancedLimiter true None snapshot_inner)
             handler)))
    NewRecorder req 0%nat =
  handler
    (rw_HeaderSet "X-RateLimit-Remaining" (Sprintf_d 4)
       (rw_HeaderSet "X-RateLimit-Limit" (Sprintf_d 5) NewRecorder))
    req 0%nat.
Proof.
  split; [reflexivity|]. split; [reflexivity|].
  exact (AdvancedMiddleware_nested_allow
           (mockAdvancedLimiter true None snapshot_allowed)
           (mockAdvancedLimiter true None snapshot_inner) handler
           NewRecorder req 0%nat 0%nat snapshot_allowed 0%nat 0%nat
           snapshot_inner 0%nat eq_refl eq_refl eq_refl eq_refl).
Defined.

(** Outer limiter allows with 100/99, inner one denies for two seconds. *)
Lemma AdvancedMiddleware_nested_deny_witness :
  IsAllowed (mockAdvancedLimiter true None snapshot_allowed) req 0%nat
    = ((true, None), 0%nat) ∧
  IsAllowed (mockAdvancedLimiter false None snapshot_inner) req 0%nat
    = ((false, None), 0%nat) ∧
  wroteHeader NewRecorder = false ∧
  let res :=
    as_Handler
      (AdvancedMiddleware (mockAdvancedLimiter true None snapshot_allowed)
         (as_Handler
            (AdvancedMiddleware (mockAdvancedLimiter false None snapshot_inner)
               handler)))
      NewRecorder req 0%nat in
  res.2 = 0%nat ∧ Code res.1 = 429 ∧
  Header_Get "X-RateLimit-Limit" (snapHeader res.1) = Sprintf_d 100 ∧
  Header_Get "X-RateLimit-Retry-After" (snapHeader res.1) =
    Sprintf_d (Milliseconds (2 * Second)).
Proof.
  split; [reflexivity|]. split; [reflexivity|]. split; [reflexivity|].
  pose proof (AdvancedMiddleware_nested_deny
                (mockAdvancedLimiter true None snapshot_allowed)
                (mockAdvancedLimiter false None snapshot_inner) handler
                NewRecorder req 0%nat 0%nat snapshot_allowed 0%nat 0%nat
                snapshot_inner 0%nat eq_refl eq_refl eq_refl eq_refl eq_refl)
    as H.
  cbv zeta in H. destruct H as (He & Hc & _ & HL & _ & HR).
  split; [exact He|]. split; [exact Hc|]. split; [exact HL|exact HR].
Defined.

End FurtherScenarios.
